(** * sonybraviaremote: a shallow embedding of [tv.py] and [tvconfig.py]

    The library talks to a television over HTTP.  Every method of [TV]
    builds one request, hands it to [requests.post], looks at the status
    code and at the decoded body.  The embedding keeps that shape:

    - Python values coming out of [response.json()] are a data type
      [pyvalue]; subscripting and iteration follow Python's rules and
      raise Python's exceptions;
    - the network is an oracle [device] that answers a request, knowing
      what happened before; every call of [requests.post] and every call
      of the pairing callback is appended to a trace of events;
    - a method is a computation [M A]: it takes the trace so far and
      gives back either an exception or a result, with the trace
      extended.  The trace survives an exception, as the requests that
      were made before a fault have been made. *)

From Stdlib Require Import String Ascii List ZArith QArith Bool Lia.
Import ListNotations.

Set Warnings "-register-all".

Local Open Scope string_scope.
Local Open Scope Z_scope.

(** ** Python values *)

(** What [response.json()] can produce: [None], booleans, integers,
    (finite) floats given by their exact value, strings, lists and
    dictionaries with string keys.  A dictionary is the list of its
    items in insertion order, its keys pairwise different. *)
Inductive pyvalue : Type :=
| PyNone
| PyBool (b : bool)
| PyInt (n : Z)
| PyFloat (q : Q)
| PyStr (s : string)
| PyList (items : list pyvalue)
| PyDict (fields : list (string * pyvalue)).

(** ** Requests and responses *)

(** The [data] of a request: either [json.dumps(payload)], kept as the
    payload it serialises, or a text given as it is. *)
Inductive body : Type :=
| json_dumps (payload : pyvalue)
| text (s : string).

(** The keyword arguments of [requests.post]. *)
Record request : Type := mkRequest {
  req_url : string;
  req_data : body;
  req_headers : list (string * string);
  req_auth : option (string * string)
}.

(** What the program reads of a response: [status_code]; [headers[name]]
    ([None] when the lookup raises [KeyError]); [json()] ([None] when the
    body does not decode); and the attribute [body] when the object has
    one (the [Response] class of [requests] defines none, so reading it
    there raises [AttributeError]). *)
Record response : Type := mkResponse {
  status_code : Z;
  headers : string -> option string;
  json : option pyvalue;
  body_attr : option string
}.

(** The exceptions the module can end with, a [RuntimeError] with its
    argument.  [ConnectionError] stands for whatever [requests.post]
    itself raises when no response arrives, [Exception] for a fault that
    the caller's callback raises. *)
Inductive exn_arg : Type :=
| ArgText (s : string)
| ArgResponse (r : response).

Inductive error : Type :=
| RuntimeError (arg : exn_arg)
| KeyError (key : pyvalue)
| IndexError
| TypeError
| ValueError
| AttributeError (name : string)
| ConnectionError
| Exception (what : string).

(** ** The trace and the monad *)

Inductive event : Type :=
| Post (r : request)
| Callback.

Definition trace : Type := list event.

Definition M (A : Type) : Type := trace -> (error + A) * trace.

Definition ret {A} (a : A) : M A := fun tr => (inr a, tr).

Definition raise {A} (e : error) : M A := fun tr => (inl e, tr).

Definition bind {A B} (m : M A) (k : A -> M B) : M B :=
  fun tr =>
    match m tr with
    | (inr a, tr') => k a tr'
    | (inl e, tr') => (inl e, tr')
    end.

(** A pure step that may raise. *)
Definition lift {A} (r : error + A) : M A := fun tr => (r, tr).

Declare Scope py_scope.
Delimit Scope py_scope with py.
Notation "x <- m ;; k" := (bind m (fun x => k))
  (at level 61, m at next level, right associativity) : py_scope.
Notation "m ;; k" := (bind m (fun _ => k))
  (at level 61, right associativity) : py_scope.
Local Open Scope py_scope.

(** The requests among the events, in order. *)
Fixpoint posts (tr : trace) : list request :=
  match tr with
  | [] => []
  | Post r :: tr' => r :: posts tr'
  | Callback :: tr' => posts tr'
  end.

(** How often the callback was called. *)
Fixpoint callbacks (tr : trace) : nat :=
  match tr with
  | [] => O
  | Post _ :: tr' => callbacks tr'
  | Callback :: tr' => S (callbacks tr')
  end.

(** ** Python's operations on values *)

(** The lower-case letter of an upper-case ASCII letter. *)
Definition lower_char (c : ascii) : ascii :=
  let n := nat_of_ascii c in
  if (Nat.leb 65 n && Nat.leb n 90)%bool then ascii_of_nat (n + 32) else c.

(** [s.lower()], on the ASCII letters. *)
Fixpoint lower (s : string) : string :=
  match s with
  | EmptyString => EmptyString
  | String c s' => String (lower_char c) (lower s')
  end.

(** Truth value of a string: the empty string is false. *)
Definition truthy (s : string) : bool :=
  match s with
  | EmptyString => false
  | String _ _ => true
  end.

(** The position a (possibly negative) index denotes in a sequence of
    [len] elements, when it is in range. *)
Definition position (i : Z) (len : nat) : option nat :=
  if (0 <=? i) && (i <? Z.of_nat len) then Some (Z.to_nat i)
  else if (- Z.of_nat len <=? i) && (i <? 0) then Some (Z.to_nat (Z.of_nat len + i))
  else None.

Definition one_char (c : ascii) : string := String c EmptyString.

(** The characters of a string, each a string of length one. *)
Fixpoint chars (s : string) : list pyvalue :=
  match s with
  | EmptyString => []
  | String c s' => PyStr (one_char c) :: chars s'
  end.

(** The value of the key [k] in the items of a decoded object. *)
Definition dict_find (k : string) (fields : list (string * pyvalue)) : option pyvalue :=
  option_map snd (find (fun kv => String.eqb (fst kv) k) fields).

(** [v[k]] for a string [k]. *)
Definition getitem_str (v : pyvalue) (k : string) : error + pyvalue :=
  match v with
  | PyDict fields =>
      match dict_find k fields with
      | Some x => inr x
      | None => inl (KeyError (PyStr k))
      end
  | _ => inl TypeError
  end.

(** [v[i]] for an integer [i]. *)
Definition getitem_int (v : pyvalue) (i : Z) : error + pyvalue :=
  match v with
  | PyList items =>
      match position i (List.length items) with
      | Some n =>
          match nth_error items n with
          | Some x => inr x
          | None => inl IndexError
          end
      | None => inl IndexError
      end
  | PyStr s =>
      match position i (String.length s) with
      | Some n =>
          match String.get n s with
          | Some c => inr (PyStr (one_char c))
          | None => inl IndexError
          end
      | None => inl IndexError
      end
  | PyDict _ => inl (KeyError (PyInt i))
  | _ => inl TypeError
  end.

(** What [for entry in v] runs through: the items of a list, the keys
    of a dictionary, the characters of a string. *)
Definition iterate (v : pyvalue) : error + list pyvalue :=
  match v with
  | PyList items => inr items
  | PyDict fields => inr (map (fun kv => PyStr (fst kv)) fields)
  | PyStr s => inr (chars s)
  | _ => inl TypeError
  end.

(** [v == s] for a string [s]: only an equal string is equal to it. *)
Definition eq_str (v : pyvalue) (s : string) : bool :=
  match v with
  | PyStr t => String.eqb t s
  | _ => false
  end.

(** *** The dictionary built by [irc_codes]

    Its keys are whatever [entry['name']] gives, so any hashable value;
    [True], [1] and [1.0] are one key, as they are equal and hash
    alike. *)
Definition pydict : Type := list (pyvalue * pyvalue).

(** Lists and dictionaries cannot be keys. *)
Definition hashable (v : pyvalue) : bool :=
  match v with
  | PyList _ | PyDict _ => false
  | _ => true
  end.

(** The value of a number; [True] is 1 and [False] is 0. *)
Definition number (v : pyvalue) : option Q :=
  match v with
  | PyBool b => Some (inject_Z (if b then 1 else 0))
  | PyInt n => Some (inject_Z n)
  | PyFloat q => Some q
  | _ => None
  end.

(** Equality of two keys: strings with strings, [None] with [None],
    numbers by their value. *)
Definition key_eqb (a b : pyvalue) : bool :=
  match a, b with
  | PyStr s, PyStr t => String.eqb s t
  | PyNone, PyNone => true
  | _, _ =>
      match number a, number b with
      | Some x, Some y => Qeq_bool x y
      | _, _ => false
      end
  end.

(** The value stored under a key equal to [k], if there is one. *)
Definition dict_get (k : pyvalue) (d : pydict) : option pyvalue :=
  option_map snd (find (fun kv => key_eqb k (fst kv)) d).

(** [d[k]]. *)
Definition dict_getitem (d : pydict) (k : pyvalue) : error + pyvalue :=
  match dict_get k d with
  | Some v => inr v
  | None => inl (KeyError k)
  end.

(** The dictionary after [d[k] = v] for a hashable [k]. *)
Fixpoint dict_put (k v : pyvalue) (d : pydict) : pydict :=
  match d with
  | [] => [(k, v)]
  | (k', v') :: d' =>
      if key_eqb k k' then (k', v) :: d' else (k', v') :: dict_put k v d'
  end.

(** [d[k] = v]: a key that cannot be hashed is a [TypeError]; a key
    already there keeps its place and gets the new value. *)
Definition dict_setitem (d : pydict) (k v : pyvalue) : error + pydict :=
  if hashable k then inr (dict_put k v d) else inl TypeError.

(** [range(lo, hi)]. *)
Definition range (lo hi : Z) : list Z :=
  map (fun i => lo + Z.of_nat i) (seq 0 (Z.to_nat (hi - lo))).

(** A [for] loop whose body updates [s] and may raise. *)
Fixpoint for_each {A S : Type} (xs : list A) (step : A -> S -> M S) (s : S) : M S :=
  match xs with
  | [] => ret s
  | x :: xs' => s' <- step x s ;; for_each xs' step s'
  end.

(** ** tvconfig.py *)

Record TVConfig : Type := mkTVConfig {
  host : string;
  device_name : string
}.

(** ** tv.py *)

Record TV : Type := mkTV {
  auth_key : string;
  config : TVConfig;
  _irc_codes : pydict
}.

(** What [_attempt_auth] returns: [False], or the text of the
    [Set-Cookie] header. *)
Inductive auth_outcome : Type :=
| AuthFalse
| AuthCookie (cookie : string).

(** The truth value [connect] tests with [if auth_key:], giving the
    credential when it is true. *)
Definition credential (a : auth_outcome) : option string :=
  match a with
  | AuthFalse => None
  | AuthCookie s => if truthy s then Some s else None
  end.

Definition dq : string := one_char (ascii_of_nat 34).

(** The envelope around the code: the literals of the payload of
    [_send_irc_code] up to [%s] and after it. *)
Definition envelope_head : string :=
  "<?xml version=" ++ dq ++ "1.0" ++ dq ++ "?>"
  ++ "<s:Envelope xmlns:s=" ++ dq ++ "http://schemas.xmlsoap.org/soap/envelope/" ++ dq
  ++ " s:encodingStyle=" ++ dq ++ "http://schemas.xmlsoap.org/soap/encoding/" ++ dq ++ ">"
  ++ "<s:Body>"
  ++ "<u:X_SendIRCC xmlns:u=" ++ dq ++ "urn:schemas-sony-com:service:IRCC:1" ++ dq ++ ">".

Definition envelope_tail : string :=
  "</u:X_SendIRCC>"
  ++ "</s:Body>"
  ++ "</s:Envelope>".

Definition envelope (irc_code : string) : string :=
  envelope_head ++ "<IRCCCode>" ++ irc_code ++ "</IRCCCode>" ++ envelope_tail.

Section Program.

(** The television and the network in front of it: what comes back for
    a request, given everything that happened before; [None] when
    [requests.post] raises instead of returning. *)
Variable device : trace -> request -> option response.

(** Python's [str()] on the values that are not strings, which is what
    [%s] prints for them. *)
Variable str : pyvalue -> string.

(** [requests.post(url, data=..., headers=..., auth=...)]. *)
Definition post (r : request) : M response :=
  fun tr =>
    match device tr r with
    | Some resp => (inr resp, (tr ++ [Post r])%list)
    | None => (inl ConnectionError, (tr ++ [Post r])%list)
    end.

(** [callback()]: the callback answers with a pincode or raises. *)
Definition call (callback : trace -> error + string) : M string :=
  fun tr => (callback tr, (tr ++ [Callback])%list).

(** [response.body]. *)
Definition get_body (r : response) : error + string :=
  match body_attr r with
  | Some b => inr b
  | None => inl (AttributeError "body")
  end.

(** [response.json()]. *)
Definition get_json (r : response) : error + pyvalue :=
  match json r with
  | Some v => inr v
  | None => inl ValueError
  end.

(** [response.headers[name]]: [requests] keeps the headers in a
    dictionary that ignores case; a missing header is a [KeyError] on
    the name in lower case. *)
Definition get_header (r : response) (name : string) : error + string :=
  match headers r name with
  | Some v => inr v
  | None => inl (KeyError (PyStr (lower name)))
  end.

(** ['...%s...' % v]. *)
Definition format_s (v : pyvalue) : string :=
  match v with
  | PyStr s => s
  | _ => str v
  end.

(** The request of [irc_codes]: [url], [json.dumps(payload)] and the
    headers. *)
Definition irc_codes_request (config : TVConfig) : request :=
  let url := "http://" ++ host config ++ "/sony/system" in
  let payload := PyDict [
    ("method", PyStr "getRemoteControllerInfo");
    ("params", PyList []);
    ("id", PyInt 10);
    ("version", PyStr "1.0")
  ] in
  {| req_url := url;
     req_data := json_dumps payload;
     req_headers := [("SOAPAction", "urn:schemas-sony-com:service:IRCC:1#X_SendIRCC")];
     req_auth := None |}.

(** The body of the loop of [irc_codes],
    [irc_codes[entry['name']] = entry['value']]: Python evaluates the
    right-hand side, then the subscript, then stores. *)
Definition store_entry (entry : pyvalue) (irc_codes : pydict) : M pydict :=
  value <- lift (getitem_str entry "value") ;;
  name <- lift (getitem_str entry "name") ;;
  lift (dict_setitem irc_codes name value).

(** [TV.irc_codes]; of [self] it reads [self.config] only, and it runs
    inside [__init__] before [self._irc_codes] is there. *)
Definition irc_codes (config : TVConfig) : M pydict :=
  response <- post (irc_codes_request config) ;;
  if negb (status_code response =? 200) then
    b <- lift (get_body response) ;;
    raise (RuntimeError (ArgText b))
  else
    original_data <- lift (get_json response) ;;
    result <- lift (getitem_str original_data "result") ;;
    second <- lift (getitem_int result 1) ;;
    entries <- lift (iterate second) ;;
    for_each entries store_entry [].

(** [TV.__init__]. *)
Definition TV_init (auth_key : string) (config : TVConfig) : M TV :=
  codes <- irc_codes config ;;
  ret {| auth_key := auth_key; config := config; _irc_codes := codes |}.

(** The request of [is_on]; it carries no headers. *)
Definition is_on_request (config : TVConfig) : request :=
  let url := "http://" ++ host config ++ "/sony/system" in
  let payload := PyDict [
    ("method", PyStr "getPowerStatus");
    ("params", PyList []);
    ("id", PyInt 10);
    ("version", PyStr "1.0")
  ] in
  {| req_url := url;
     req_data := json_dumps payload;
     req_headers := [];
     req_auth := None |}.

(** [TV.is_on]. *)
Definition is_on (self : TV) : M bool :=
  response <- post (is_on_request (config self)) ;;
  if negb (status_code response =? 200) then
    b <- lift (get_body response) ;;
    raise (RuntimeError (ArgText b))
  else
    data <- lift (get_json response) ;;
    result <- lift (getitem_str data "result") ;;
    first <- lift (getitem_int result 0) ;;
    status <- lift (getitem_str first "status") ;;
    ret (eq_str status "active").

(** The request [_send_irc_code] makes once the code is known. *)
Definition ircc_request (self : TV) (irc_code : pyvalue) : request := {|
  req_url := "http://" ++ host (config self) ++ "/sony/IRCC";
  req_data := text (envelope (format_s irc_code));
  req_headers := [
    ("Cookie", auth_key self);
    ("SOAPAction", dq ++ "urn:schemas-sony-com:service:IRCC:1#X_SendIRCC" ++ dq)
  ];
  req_auth := None
|}.

(** [TV._send_irc_code]: the payload, and so the lookup in
    [self._irc_codes], comes before the request. *)
Definition _send_irc_code (self : TV) (code : string) : M unit :=
  irc_code <- lift (dict_getitem (_irc_codes self) (PyStr code)) ;;
  response <- post (ircc_request self irc_code) ;;
  if negb (status_code response =? 200) then
    raise (RuntimeError (ArgResponse response))
  else
    ret tt.

Definition mute (self : TV) : M unit := _send_irc_code self "Mute".

(** [volume_up(self, amount=5)]: [None] is the call without argument. *)
Definition volume_up (self : TV) (amount : option Z) : M unit :=
  let amount := match amount with Some a => a | None => 5 end in
  for_each (range 0 amount) (fun _ _ => _send_irc_code self "VolumeUp") tt.

Definition volume_down (self : TV) (amount : option Z) : M unit :=
  let amount := match amount with Some a => a | None => 5 end in
  for_each (range 0 amount) (fun _ _ => _send_irc_code self "VolumeDown") tt.

Definition pause (self : TV) : M unit := _send_irc_code self "Pause".

Definition play (self : TV) : M unit := _send_irc_code self "Play".

Definition power_off (self : TV) : M unit := _send_irc_code self "PowerOff".

Definition wake_up (self : TV) : M unit := _send_irc_code self "WakeUp".

Definition home (self : TV) : M unit := _send_irc_code self "Home".

Definition netflix (self : TV) : M unit := _send_irc_code self "Netflix".

Definition enter (self : TV) : M unit := _send_irc_code self "Enter".

Definition confirm (self : TV) : M unit := _send_irc_code self "Confirm".

(** The request of [_attempt_auth]: [auth] is set only for a pincode
    that is true, so neither for [None] nor for the empty string. *)
Definition auth_request (config : TVConfig) (pincode : option string) : request :=
  let url := "http://" ++ host config ++ "/sony/accessControl" in
  let client_id := device_name config ++ ":1" in
  let payload := PyDict [
    ("id", PyInt 13);
    ("method", PyStr "actRegister");
    ("version", PyStr "1.0");
    ("params", PyList [
      PyDict [
        ("clientid", PyStr client_id);
        ("nickname", PyStr (device_name config))
      ];
      PyList [PyDict [
        ("clientid", PyStr client_id);
        ("value", PyStr "yes");
        ("nickname", PyStr (device_name config));
        ("function", PyStr "WOL")
      ]]
    ])
  ] in
  {| req_url := url;
     req_data := json_dumps payload;
     req_headers := [];
     req_auth :=
       match pincode with
       | Some p => if truthy p then Some (EmptyString, p) else None
       | None => None
       end |}.

(** [TV._attempt_auth(config, pincode=None)]. *)
Definition _attempt_auth (config : TVConfig) (pincode : option string) : M auth_outcome :=
  response <- post (auth_request config pincode) ;;
  if negb (status_code response =? 200) then
    ret AuthFalse
  else
    cookie <- lift (get_header response "Set-Cookie") ;;
    ret (AuthCookie cookie).

(** [TV.connect]. *)
Definition connect (config : TVConfig) (callback : trace -> error + string) : M TV :=
  auth_key <- _attempt_auth config None ;;
  match credential auth_key with
  | Some key => TV_init key config
  | None =>
      pincode <- call callback ;;
      auth_key <- _attempt_auth config (Some pincode) ;;
      match credential auth_key with
      | Some key => TV_init key config
      | None => raise (RuntimeError (ArgText "Could not pair with the TV"))
      end
  end.

End Program.

(** ** Televisions to run the program against *)

(** A response of the [requests] library (no attribute [body]) with a
    status, possibly a [Set-Cookie] header, possibly a body that
    decodes. *)
Definition reply (status : Z) (cookie : option string) (decoded : option pyvalue) : response :=
  {| status_code := status;
     headers := fun name => if String.eqb (lower name) "set-cookie" then cookie else None;
     json := decoded;
     body_attr := None |}.

(** A television that answers each endpoint in a fixed way; the
    pairing endpoint looks at the credentials of the request. *)
Record television : Type := mkTelevision {
  on_access : option (string * string) -> response;
  on_controller_info : response;
  on_power_status : response;
  on_ircc : response
}.

Definition serve (h : string) (t : television) : trace -> request -> option response :=
  fun _ r =>
    if String.eqb (req_url r) ("http://" ++ h ++ "/sony/accessControl") then
      Some (on_access t (req_auth r))
    else if String.eqb (req_url r) ("http://" ++ h ++ "/sony/system") then
      match req_data r with
      | json_dumps (PyDict (("method", PyStr m) :: _)) =>
          if String.eqb m "getPowerStatus" then Some (on_power_status t)
          else Some (on_controller_info t)
      | _ => None
      end
    else if String.eqb (req_url r) ("http://" ++ h ++ "/sony/IRCC") then
      Some (on_ircc t)
    else None.

Definition living_room : TVConfig := {| host := "192.168.1.20"; device_name := "remote" |}.

Definition record_of (name value : string) : pyvalue :=
  PyDict [("name", PyStr name); ("value", PyStr value)].

(** The body [{"result": [{}, [{"name": "Mute", "value": ...}]]}]. *)
Definition mute_only : pyvalue :=
  PyDict [("result", PyList [PyDict []; PyList [record_of "Mute" "AAAAAQAAAAEAAAAUAw=="]])].

Definition three_codes : pyvalue :=
  PyDict [("result", PyList [
    PyDict [("bundled", PyBool true); ("type", PyStr "IR_REMOTE_BUNDLE_TYPE_VT6")];
    PyList [
      record_of "Mute" "AAAAAQAAAAEAAAAUAw==";
      record_of "VolumeUp" "AAAAAQAAAAEAAAASAw==";
      record_of "VolumeDown" "AAAAAQAAAAEAAAATAw=="
    ]])].

Definition power (status : string) : pyvalue :=
  PyDict [("result", PyList [PyDict [("status", PyStr status)]]); ("id", PyInt 10)].

(** A television that knows the controller already. *)
Definition paired_tv : television := {|
  on_access := fun _ => reply 200 (Some "auth=0123abcd; path=/sony/") (Some (PyDict [("result", PyList [])]));
  on_controller_info := reply 200 None (Some three_codes);
  on_power_status := reply 200 None (Some (power "active"));
  on_ircc := reply 200 None None
|}.

(** A television that wants the pincode 4711. *)
Definition pairing_tv : television := {|
  on_access := fun auth =>
    match auth with
    | Some (_, pin) =>
        if String.eqb pin "4711" then reply 200 (Some "auth=89ab; path=/sony/") None
        else reply 401 None None
    | None => reply 401 None None
    end;
  on_controller_info := reply 200 None (Some three_codes);
  on_power_status := reply 200 None (Some (power "standby"));
  on_ircc := reply 200 None None
|}.

(** The callback of a user who types the pincode, and of one who does
    not know it. *)
Definition types_4711 : trace -> error + string := fun _ => inr "4711".
Definition types_0000 : trace -> error + string := fun _ => inr "0000".

(** [str()] is not consulted when every code is a string. *)
Definition str_unused : pyvalue -> string := fun _ => EmptyString.

(** A television that pairs at once but answers the controller-info
    request with the error body of the Sony API instead of a result. *)
Definition forbidden : pyvalue :=
  PyDict [("error", PyList [PyInt 403; PyStr "Forbidden"]); ("id", PyInt 10)].

Definition closed_tv : television := {|
  on_access := fun _ => reply 200 (Some "auth=0123abcd; path=/sony/") None;
  on_controller_info := reply 200 None (Some forbidden);
  on_power_status := reply 200 None (Some forbidden);
  on_ircc := reply 200 None None
|}.

(** The same behind a pincode. *)
Definition closed_pairing_tv : television := {|
  on_access := on_access pairing_tv;
  on_controller_info := reply 200 None (Some forbidden);
  on_power_status := reply 200 None (Some forbidden);
  on_ircc := reply 200 None None
|}.

(** A television whose pairing answer is a success without a cookie. *)
Definition cookieless_tv : television := {|
  on_access := fun _ => reply 200 None None;
  on_controller_info := reply 200 None (Some three_codes);
  on_power_status := reply 200 None (Some (power "active"));
  on_ircc := reply 200 None None
|}.

(** A television that refuses the control requests. *)
Definition deaf_tv : television := {|
  on_access := on_access paired_tv;
  on_controller_info := on_controller_info paired_tv;
  on_power_status := on_power_status paired_tv;
  on_ircc := reply 500 None None
|}.

(** A television whose controller info has an empty object where the
    list of codes should be: [{"result": [{}, {}]}]. *)
Definition no_list : pyvalue :=
  PyDict [("result", PyList [PyDict []; PyDict []])].

Definition listless_tv : television := {|
  on_access := on_access paired_tv;
  on_controller_info := reply 200 None (Some no_list);
  on_power_status := on_power_status paired_tv;
  on_ircc := on_ircc paired_tv
|}.

(** A television that has only the code of the example. *)
Definition mute_tv : television := {|
  on_access := on_access paired_tv;
  on_controller_info := reply 200 None (Some mute_only);
  on_power_status := on_power_status paired_tv;
  on_ircc := on_ircc paired_tv
|}.

(** The session [connect] gives with [paired_tv]. *)
Definition session : TV := {|
  auth_key := "auth=0123abcd; path=/sony/";
  config := living_room;
  _irc_codes := [
    (PyStr "Mute", PyStr "AAAAAQAAAAEAAAAUAw==");
    (PyStr "VolumeUp", PyStr "AAAAAQAAAAEAAAASAw==");
    (PyStr "VolumeDown", PyStr "AAAAAQAAAAEAAAATAw==")
  ]
|}.

(** ** Notions the statements use *)

(** The device takes a request: it answers with status 200. *)
Definition accepts (device : trace -> request -> option response) (tr : trace) (r : request) : Prop :=
  exists resp, device tr r = Some resp /\ status_code resp = 200.

(** [needle] occurs in [hay]. *)
Definition contains (needle hay : string) : Prop :=
  exists before after, hay = before ++ needle ++ after.

(** A record with a [name] and a [value]. *)
Definition is_record (entry : pyvalue) : Prop :=
  exists fields n x,
    entry = PyDict fields /\ dict_find "name" fields = Some n /\ dict_find "value" fields = Some x.

(** A record whose name can be a key of a dictionary. *)
Definition is_keyed_record (entry : pyvalue) : Prop :=
  exists fields n x,
    entry = PyDict fields /\ dict_find "name" fields = Some n /\ hashable n = true
    /\ dict_find "value" fields = Some x.

(** The structure the discovery expects: an object whose [result] is an
    array, the second element of which is a sequence of records. *)
Definition expected_structure (v : pyvalue) : Prop :=
  exists top items records,
    v = PyDict top /\ dict_find "result" top = Some (PyList items)
    /\ nth_error items 1 = Some (PyList records) /\ Forall is_record records.

(** The second element of [result] is there, but is an empty object or
    an empty string. *)
Definition empty_second (v : pyvalue) : Prop :=
  exists top items second,
    v = PyDict top /\ dict_find "result" top = Some (PyList items)
    /\ nth_error items 1 = Some second /\ (second = PyDict [] \/ second = PyStr EmptyString).

(** The faults of a lookup in a decoded body, and of the decoding. *)
Definition lookup_fault (e : error) : bool :=
  match e with
  | KeyError _ | IndexError | TypeError | ValueError => true
  | _ => false
  end.

(** Whether a record is named [name], and its value. *)
Definition named (name : string) (entry : pyvalue) : bool :=
  match entry with
  | PyDict fields =>
      match dict_find "name" fields with
      | Some n => key_eqb (PyStr name) n
      | None => false
      end
  | _ => false
  end.

Definition value_of (entry : pyvalue) : option pyvalue :=
  match entry with
  | PyDict fields => dict_find "value" fields
  | _ => None
  end.

(** The mapping as the specification words it: a name goes to the value
    of the record of that name, the last one if there are several. *)
Fixpoint mapped (records : list pyvalue) (name : string) : option pyvalue :=
  match records with
  | [] => None
  | r :: rest =>
      match mapped rest name with
      | Some x => Some x
      | None => if named name r then value_of r else None
      end
  end.

(** *** The pure part of [irc_codes] *)

Definition and_then {A B} (r : error + A) (k : A -> error + B) : error + B :=
  match r with
  | inr a => k a
  | inl e => inl e
  end.

(** One turn of the loop, and the loop, without the trace. *)
Definition stored (entry : pyvalue) (d : pydict) : error + pydict :=
  and_then (getitem_str entry "value") (fun value =>
  and_then (getitem_str entry "name") (fun name =>
  dict_setitem d name value)).

Fixpoint collected (entries : list pyvalue) (d : pydict) : error + pydict :=
  match entries with
  | [] => inr d
  | e :: rest => and_then (stored e d) (collected rest)
  end.

(** What [irc_codes] makes of a response. *)
Definition read_codes (resp : response) : error + pydict :=
  if negb (status_code resp =? 200) then
    and_then (get_body resp) (fun b => inl (RuntimeError (ArgText b)))
  else
    and_then (get_json resp) (fun data =>
    and_then (getitem_str data "result") (fun result =>
    and_then (getitem_int result 1) (fun second =>
    and_then (iterate second) (fun entries =>
    collected entries [])))).

(** What [is_on] makes of a response. *)
Definition read_power (resp : response) : error + bool :=
  if negb (status_code resp =? 200) then
    and_then (get_body resp) (fun b => inl (RuntimeError (ArgText b)))
  else
    and_then (get_json resp) (fun data =>
    and_then (getitem_str data "result") (fun result =>
    and_then (getitem_int result 0) (fun first =>
    and_then (getitem_str first "status") (fun status =>
    inr (eq_str status "active"))))).

(** What [_attempt_auth] makes of a response. *)
Definition read_auth (resp : response) : error + auth_outcome :=
  if negb (status_code resp =? 200) then inr AuthFalse
  else and_then (get_header resp "Set-Cookie") (fun cookie => inr (AuthCookie cookie)).

(** What [_send_irc_code] makes of a response. *)
Definition read_sent (resp : response) : error + unit :=
  if negb (status_code resp =? 200) then inl (RuntimeError (ArgResponse resp))
  else inr tt.

(** The answer of the device, or the fault of [requests.post]. *)
Definition answered {A} (device : trace -> request -> option response)
  (tr : trace) (r : request) (read : response -> error + A) : error + A :=
  match device tr r with
  | Some resp => read resp
  | None => inl ConnectionError
  end.

(** *** More televisions and callbacks *)

(** A television that serves [limit] requests, of any kind, and
    answers every later one with status 500. *)
Definition worn_out (limit : nat) (h : string) (t : television)
    : trace -> request -> option response :=
  fun tr r =>
    if (limit <=? List.length (posts tr))%nat then Some (reply 500 None None)
    else serve h t tr r.

(** A television whose pairing answer is a success with an empty
    [Set-Cookie]. *)
Definition blank_cookie_tv : television := {|
  on_access := fun _ => reply 200 (Some EmptyString) None;
  on_controller_info := reply 200 None (Some three_codes);
  on_power_status := reply 200 None (Some (power "active"));
  on_ircc := reply 200 None None
|}.

(** A controller info whose second record has no [value]. *)
Definition defective : pyvalue :=
  PyDict [("result", PyList [
    PyDict [];
    PyList [
      record_of "Mute" "AAAAAQAAAAEAAAAUAw==";
      PyDict [("name", PyStr "Home")];
      record_of "VolumeUp" "AAAAAQAAAAEAAAASAw=="
    ]])].

Definition defective_tv : television := {|
  on_access := on_access paired_tv;
  on_controller_info := reply 200 None (Some defective);
  on_power_status := on_power_status paired_tv;
  on_ircc := on_ircc paired_tv
|}.

(** The callback of a user who presses return, and of one who gives
    up. *)
Definition types_nothing : trace -> error + string := fun _ => inr EmptyString.
Definition gives_up : trace -> error + string := fun _ => inl (Exception "no pincode").

(** The two endpoints [connect] talks to. *)
Definition pairing_or_system (config : TVConfig) (r : request) : Prop :=
  req_url r = "http://" ++ host config ++ "/sony/accessControl"
  \/ req_url r = "http://" ++ host config ++ "/sony/system".

(** The methods of a session that act on the television, the volume
    methods with the counts [up] and [down]. *)
Definition actions (device : trace -> request -> option response) (str : pyvalue -> string)
    (self : TV) (up down : option Z) : list (M unit) := [
  mute device str self;
  volume_up device str self up;
  volume_down device str self down;
  pause device str self;
  play device str self;
  power_off device str self;
  wake_up device str self;
  home device str self;
  netflix device str self;
  enter device str self;
  confirm device str self
].

(** An event is a control request of the session: a request to
    [/sony/IRCC] of its host, with its credential as [Cookie] and a
    code in the envelope. *)
Definition control_event (str : pyvalue -> string) (self : TV) (ev : event) : Prop :=
  exists v, ev = Post (ircc_request str self v).

(** * Properties *)

Local Open Scope list_scope.

Section Runs.

Variable device : trace -> request -> option response.
Variable str : pyvalue -> string.

Lemma bind_lift {A B} (r : error + A) (k : A -> M B) (tr : trace) :
  bind (lift r) k tr = match r with inr a => k a tr | inl e => (inl e, tr) end.
Proof. unfold bind, lift. destruct r; reflexivity. Qed.

Lemma posts_app (a b : trace) : posts (a ++ b) = (posts a ++ posts b)%list.
Proof.
  induction a as [| [r |] a IH]; simpl; [reflexivity | f_equal; exact IH | exact IH].
Qed.

Lemma callbacks_app (a b : trace) : callbacks (a ++ b) = (callbacks a + callbacks b)%nat.
Proof.
  induction a as [| [r |] a IH]; simpl; [reflexivity | exact IH | f_equal; exact IH].
Qed.

Lemma store_entry_run (entry : pyvalue) (d : pydict) (tr : trace) :
  store_entry entry d tr = (stored entry d, tr).
Proof.
  unfold store_entry, stored. rewrite bind_lift.
  destruct (getitem_str entry "value") as [e | value]; simpl; [reflexivity |].
  rewrite bind_lift.
  destruct (getitem_str entry "name") as [e | name]; reflexivity.
Qed.

Lemma for_each_store_run (entries : list pyvalue) (d : pydict) (tr : trace) :
  for_each entries store_entry d tr = (collected entries d, tr).
Proof.
  revert d. induction entries as [| e rest IH]; intros d; simpl; [reflexivity |].
  unfold bind. rewrite store_entry_run.
  destruct (stored e d) as [x | d']; simpl; [reflexivity | apply IH].
Qed.

Lemma irc_codes_run (config : TVConfig) (tr : trace) :
  irc_codes device config tr
  = (answered device tr (irc_codes_request config) read_codes,
     (tr ++ [Post (irc_codes_request config)])%list).
Proof.
  unfold irc_codes, answered, read_codes, bind at 1, post.
  destruct (device tr (irc_codes_request config)) as [resp |]; [| reflexivity].
  destruct (negb (status_code resp =? 200)).
  - rewrite bind_lift. destruct (get_body resp); reflexivity.
  - rewrite bind_lift. destruct (get_json resp) as [e | data]; simpl; [reflexivity |].
    rewrite bind_lift. destruct (getitem_str data "result") as [e | result]; simpl; [reflexivity |].
    rewrite bind_lift. destruct (getitem_int result 1) as [e | second]; simpl; [reflexivity |].
    rewrite bind_lift. destruct (iterate second) as [e | entries]; simpl; [reflexivity |].
    apply for_each_store_run.
Qed.

Lemma is_on_run (self : TV) (tr : trace) :
  is_on device self tr
  = (answered device tr (is_on_request (config self)) read_power,
     (tr ++ [Post (is_on_request (config self))])%list).
Proof.
  unfold is_on, answered, read_power, bind at 1, post.
  destruct (device tr (is_on_request (config self))) as [resp |]; [| reflexivity].
  destruct (negb (status_code resp =? 200)).
  - rewrite bind_lift. destruct (get_body resp); reflexivity.
  - rewrite bind_lift. destruct (get_json resp) as [e | data]; simpl; [reflexivity |].
    rewrite bind_lift. destruct (getitem_str data "result") as [e | result]; simpl; [reflexivity |].
    rewrite bind_lift. destruct (getitem_int result 0) as [e | first]; simpl; [reflexivity |].
    rewrite bind_lift. destruct (getitem_str first "status") as [e | status]; reflexivity.
Qed.

Lemma attempt_auth_run (config : TVConfig) (pincode : option string) (tr : trace) :
  _attempt_auth device config pincode tr
  = (answered device tr (auth_request config pincode) read_auth,
     (tr ++ [Post (auth_request config pincode)])%list).
Proof.
  unfold _attempt_auth, answered, read_auth, bind at 1, post.
  destruct (device tr (auth_request config pincode)) as [resp |]; [| reflexivity].
  destruct (negb (status_code resp =? 200)); [reflexivity |].
  rewrite bind_lift. destruct (get_header resp "Set-Cookie"); reflexivity.
Qed.

Lemma send_irc_code_run (self : TV) (code : string) (v : pyvalue) (tr : trace) :
  dict_get (PyStr code) (_irc_codes self) = Some v ->
  _send_irc_code device str self code tr
  = (answered device tr (ircc_request str self v) read_sent,
     (tr ++ [Post (ircc_request str self v)])%list).
Proof.
  intros Hv. unfold _send_irc_code. rewrite bind_lift.
  unfold dict_getitem. rewrite Hv.
  unfold answered, read_sent, bind, post.
  destruct (device tr (ircc_request str self v)) as [resp |]; [| reflexivity].
  destruct (negb (status_code resp =? 200)); reflexivity.
Qed.

Lemma send_irc_code_missing (self : TV) (code : string) (tr : trace) :
  dict_get (PyStr code) (_irc_codes self) = None ->
  _send_irc_code device str self code tr = (inl (KeyError (PyStr code)), tr).
Proof.
  intros Hv. unfold _send_irc_code. rewrite bind_lift.
  unfold dict_getitem. rewrite Hv. reflexivity.
Qed.

End Runs.

(** ** Command dispatch *)

Lemma accepted_sent device tr r :
  accepts device tr r -> answered device tr r read_sent = inr tt.
Proof.
  intros [resp [Hd Hs]]. unfold answered, read_sent. rewrite Hd, Hs. reflexivity.
Qed.

Lemma length_range (n : Z) : List.length (range 0 n) = Z.to_nat n.
Proof.
  unfold range. rewrite length_map, length_seq. f_equal. lia.
Qed.

(** A loop of dispatches of one command sends the same request over
    and over, and stops at the first dispatch that raises. *)
Lemma dispatch_loop_bound device str self code v (xs : list Z) :
  dict_get (PyStr code) (_irc_codes self) = Some v ->
  forall tr,
  exists k,
    (k <= List.length xs)%nat
    /\ snd (for_each xs (fun _ _ => _send_irc_code device str self code) tt tr)
       = tr ++ repeat (Post (ircc_request str self v)) k
    /\ (fst (for_each xs (fun _ _ => _send_irc_code device str self code) tt tr) = inr tt
        -> k = List.length xs).
Proof.
  intros Hv. induction xs as [| x xs IH]; intros tr.
  - exists O. simpl. rewrite app_nil_r. repeat split; lia.
  - simpl. unfold bind. rewrite (send_irc_code_run device str self code v tr Hv).
    destruct (answered device tr (ircc_request str self v) read_sent) as [e | []];
      cbv beta iota.
    + exists 1%nat. simpl. repeat split; [lia | discriminate].
    + destruct (IH (tr ++ [Post (ircc_request str self v)])) as [k [Hk [Htr Hres]]].
      exists (S k). repeat split.
      * lia.
      * rewrite Htr, <- app_assoc. reflexivity.
      * intros H. f_equal. apply Hres. exact H.
Qed.

Lemma dispatch_loop_accepted device str self code v (xs : list Z) :
  dict_get (PyStr code) (_irc_codes self) = Some v ->
  (forall tr, accepts device tr (ircc_request str self v)) ->
  forall tr,
    for_each xs (fun _ _ => _send_irc_code device str self code) tt tr
    = (inr tt, tr ++ repeat (Post (ircc_request str self v)) (List.length xs)).
Proof.
  intros Hv Hok. induction xs as [| x xs IH]; intros tr.
  - simpl. rewrite app_nil_r. reflexivity.
  - simpl. unfold bind. rewrite (send_irc_code_run device str self code v tr Hv).
    rewrite (accepted_sent device tr _ (Hok tr)). cbv beta iota.
    rewrite IH, <- app_assoc. reflexivity.
Qed.

(** A loop of dispatches each of which the device accepts when its
    turn comes sends one request per turn and returns. *)
Lemma dispatch_loop_all device str self code v (xs : list Z) :
  dict_get (PyStr code) (_irc_codes self) = Some v ->
  forall tr,
    (forall i, (i < List.length xs)%nat ->
       accepts device (tr ++ repeat (Post (ircc_request str self v)) i)
         (ircc_request str self v)) ->
    for_each xs (fun _ _ => _send_irc_code device str self code) tt tr
    = (inr tt, tr ++ repeat (Post (ircc_request str self v)) (List.length xs)).
Proof.
  intros Hv. induction xs as [| x xs IH]; intros tr Hok.
  - simpl. rewrite app_nil_r. reflexivity.
  - simpl. unfold bind. rewrite (send_irc_code_run device str self code v tr Hv).
    assert (H0 : accepts device tr (ircc_request str self v)).
    { specialize (Hok O ltac:(simpl; lia)). simpl in Hok. rewrite app_nil_r in Hok. exact Hok. }
    rewrite (accepted_sent device tr _ H0). cbv beta iota.
    rewrite IH.
    + rewrite <- app_assoc. reflexivity.
    + intros i Hi. specialize (Hok (S i) ltac:(simpl; lia)).
      simpl in Hok. rewrite <- app_assoc. exact Hok.
Qed.

(** A loop of dispatches the first [j] of which the device accepts,
    and the next of which raises, ends with that exception after
    [j + 1] requests. *)
Lemma dispatch_loop_refused device str self code v (xs : list Z) :
  dict_get (PyStr code) (_irc_codes self) = Some v ->
  forall j tr e,
    (j < List.length xs)%nat ->
    (forall i, (i < j)%nat ->
       accepts device (tr ++ repeat (Post (ircc_request str self v)) i)
         (ircc_request str self v)) ->
    fst (_send_irc_code device str self code
           (tr ++ repeat (Post (ircc_request str self v)) j)) = inl e ->
    for_each xs (fun _ _ => _send_irc_code device str self code) tt tr
    = (inl e, tr ++ repeat (Post (ircc_request str self v)) (S j)).
Proof.
  intros Hv. induction xs as [| x xs IH]; intros j tr e Hj Hok He.
  - simpl in Hj. lia.
  - simpl. unfold bind. rewrite (send_irc_code_run device str self code v tr Hv).
    destruct j as [| j].
    + simpl in He. rewrite app_nil_r in He.
      rewrite (send_irc_code_run device str self code v tr Hv) in He. cbn [fst] in He.
      rewrite He. reflexivity.
    + assert (H0 : accepts device tr (ircc_request str self v)).
      { specialize (Hok O ltac:(lia)). simpl in Hok. rewrite app_nil_r in Hok. exact Hok. }
      rewrite (accepted_sent device tr _ H0). cbv beta iota.
      rewrite (IH j (tr ++ [Post (ircc_request str self v)]) e).
      * rewrite <- app_assoc. reflexivity.
      * simpl in Hj. lia.
      * intros i Hi. specialize (Hok (S i) ltac:(lia)).
        simpl in Hok. rewrite <- app_assoc. exact Hok.
      * rewrite <- app_assoc. exact He.
Qed.

(** A loop of dispatches of a command that is not in the mapping ends
    at its first turn, before any request. *)
Lemma dispatch_loop_missing device str self code (xs : list Z) tr :
  dict_get (PyStr code) (_irc_codes self) = None ->
  for_each xs (fun _ _ => _send_irc_code device str self code) tt tr
  = (match xs with [] => inr tt | _ :: _ => inl (KeyError (PyStr code)) end, tr).
Proof.
  intros Hv. destruct xs as [| x xs]; [reflexivity |].
  simpl. unfold bind. rewrite (send_irc_code_missing device str self code tr Hv).
  reflexivity.
Qed.

Lemma range_empty {A} (n : Z) (a b : A) :
  0 <= n ->
  match range 0 n with [] => a | _ :: _ => b end = if n =? 0 then a else b.
Proof.
  intros Hn. unfold range. destruct (Z.eqb_spec n 0) as [-> | Hne]; [reflexivity |].
  destruct (Z.to_nat (n - 0)) eqn:E; [lia | reflexivity].
Qed.

(** C1. A command whose name is in the cached mapping is dispatched by
    exactly one request: the trace grows by one [Post], whatever the
    device answers.  The request goes to [/sony/IRCC] of the host, its
    body is the envelope with the mapped code in the [IRCCCode] element
    (the code itself when it is a string, as [%s] prints it otherwise),
    and it carries the credential as [Cookie]. *)
Theorem dispatch_sends_mapped_code device str self code v tr :
  dict_get (PyStr code) (_irc_codes self) = Some v ->
  exists r,
    snd (_send_irc_code device str self code tr) = tr ++ [Post r]
    /\ req_url r = ("http://" ++ host (config self) ++ "/sony/IRCC")%string
    /\ req_data r
       = text (envelope_head ++ "<IRCCCode>" ++ format_s str v ++ "</IRCCCode>" ++ envelope_tail)%string
    /\ (forall s, v = PyStr s ->
        req_data r
        = text (envelope_head ++ "<IRCCCode>" ++ s ++ "</IRCCCode>" ++ envelope_tail)%string)
    /\ In ("Cookie"%string, auth_key self) (req_headers r).
Proof.
  intros Hv. exists (ircc_request str self v).
  rewrite (send_irc_code_run device str self code v tr Hv).
  repeat split.
  - intros s ->. reflexivity.
  - simpl. left. reflexivity.
Qed.

Lemma dispatch_sends_mapped_code_witness :
  dict_get (PyStr "Mute") (_irc_codes session) = Some (PyStr "AAAAAQAAAAEAAAAUAw==")
  /\ exists r,
    snd (_send_irc_code (serve "192.168.1.20" paired_tv) str_unused session "Mute" [])
    = [] ++ [Post r]
    /\ req_url r = "http://192.168.1.20/sony/IRCC"%string
    /\ req_data r
       = text (envelope_head ++ "<IRCCCode>" ++ "AAAAAQAAAAEAAAAUAw==" ++ "</IRCCCode>"
               ++ envelope_tail)%string
    /\ In ("Cookie"%string, "auth=0123abcd; path=/sony/"%string) (req_headers r).
Proof.
  split; [reflexivity |].
  destruct (dispatch_sends_mapped_code (serve "192.168.1.20" paired_tv) str_unused session
              "Mute" (PyStr "AAAAAQAAAAEAAAAUAw==") [] eq_refl)
    as [r [Htr [Hurl [Hdata [_ Hcookie]]]]].
  exists r. repeat split; assumption.
Defined.

(** C9. A command whose name is not in the cached mapping is not
    dispatched: [_send_irc_code] ends with the [KeyError] of the lookup
    [self._irc_codes[code]], and the trace is as it was, so no request
    went out. *)
Theorem dispatch_unknown_command device str self code tr :
  dict_get (PyStr code) (_irc_codes self) = None ->
  _send_irc_code device str self code tr = (inl (KeyError (PyStr code)), tr)
  /\ posts (snd (_send_irc_code device str self code tr)) = posts tr.
Proof.
  intros Hv. rewrite (send_irc_code_missing device str self code tr Hv).
  split; reflexivity.
Qed.

Lemma dispatch_unknown_command_witness :
  dict_get (PyStr "Netflix") (_irc_codes session) = None
  /\ _send_irc_code (serve "192.168.1.20" paired_tv) str_unused session "Netflix" []
     = (inl (KeyError (PyStr "Netflix")), [])
  /\ posts (snd (_send_irc_code (serve "192.168.1.20" paired_tv) str_unused session "Netflix" []))
     = posts [].
Proof.
  split; [reflexivity |].
  apply (dispatch_unknown_command (serve "192.168.1.20" paired_tv) str_unused session
           "Netflix" []).
  reflexivity.
Defined.

(** C8, as the claim has it, fails: with the default count of 5 and a
    television that answers the control request with status 500,
    [volume_up] sends one request, not five, and ends with the
    [RuntimeError] of that dispatch. *)
Lemma volume_up_stops_at_refusal :
  dict_get (PyStr "VolumeUp") (_irc_codes session) = Some (PyStr "AAAAAQAAAAEAAAASAw==")
  /\ posts (snd (volume_up (serve "192.168.1.20" deaf_tv) str_unused session None []))
     = [ircc_request str_unused session (PyStr "AAAAAQAAAAEAAAASAw==")]
  /\ List.length (posts (snd (volume_up (serve "192.168.1.20" deaf_tv) str_unused session None [])))
     <> Z.to_nat 5
  /\ fst (volume_up (serve "192.168.1.20" deaf_tv) str_unused session None [])
     = inl (RuntimeError (ArgResponse (reply 500 None None))).
Proof.
  repeat split; try reflexivity. vm_compute. discriminate.
Qed.

(** C8, amended. [volume_up] and [volume_down] take a count, 5 when it
    is left out.  For a count [n >= 0] they dispatch [VolumeUp]
    ([VolumeDown]) one request after the other and nothing else.  When
    the device accepts each of the [n] dispatches at its turn, they
    send exactly [n] requests and return.  When it accepts the first
    [j < n] and the next dispatch raises, they end with that exception
    after exactly [j + 1] requests, the refused one being the last: no
    dispatch follows a failed one.  So there are never more than [n]
    requests, and [n] whenever the call returns.  When the name is not
    in the mapping the first dispatch fails before any request. *)
Theorem volume_dispatches device str self n tr :
  0 <= n ->
  volume_up device str self None tr = volume_up device str self (Some 5) tr
  /\ volume_down device str self None tr = volume_down device str self (Some 5) tr
  /\ (forall up,
        dict_get (PyStr "VolumeUp") (_irc_codes self) = Some up ->
        ((forall i, (i < Z.to_nat n)%nat ->
            accepts device (tr ++ repeat (Post (ircc_request str self up)) i)
              (ircc_request str self up)) ->
         volume_up device str self (Some n) tr
         = (inr tt, tr ++ repeat (Post (ircc_request str self up)) (Z.to_nat n)))
        /\ (forall j e,
              (j < Z.to_nat n)%nat ->
              (forall i, (i < j)%nat ->
                 accepts device (tr ++ repeat (Post (ircc_request str self up)) i)
                   (ircc_request str self up)) ->
              fst (_send_irc_code device str self "VolumeUp"
                     (tr ++ repeat (Post (ircc_request str self up)) j)) = inl e ->
              volume_up device str self (Some n) tr
              = (inl e, tr ++ repeat (Post (ircc_request str self up)) (S j)))
        /\ (exists k,
              (k <= Z.to_nat n)%nat
              /\ snd (volume_up device str self (Some n) tr)
                 = tr ++ repeat (Post (ircc_request str self up)) k
              /\ (fst (volume_up device str self (Some n) tr) = inr tt -> k = Z.to_nat n)))
  /\ (forall down,
        dict_get (PyStr "VolumeDown") (_irc_codes self) = Some down ->
        ((forall i, (i < Z.to_nat n)%nat ->
            accepts device (tr ++ repeat (Post (ircc_request str self down)) i)
              (ircc_request str self down)) ->
         volume_down device str self (Some n) tr
         = (inr tt, tr ++ repeat (Post (ircc_request str self down)) (Z.to_nat n)))
        /\ (forall j e,
              (j < Z.to_nat n)%nat ->
              (forall i, (i < j)%nat ->
                 accepts device (tr ++ repeat (Post (ircc_request str self down)) i)
                   (ircc_request str self down)) ->
              fst (_send_irc_code device str self "VolumeDown"
                     (tr ++ repeat (Post (ircc_request str self down)) j)) = inl e ->
              volume_down device str self (Some n) tr
              = (inl e, tr ++ repeat (Post (ircc_request str self down)) (S j)))
        /\ (exists k,
              (k <= Z.to_nat n)%nat
              /\ snd (volume_down device str self (Some n) tr)
                 = tr ++ repeat (Post (ircc_request str self down)) k
              /\ (fst (volume_down device str self (Some n) tr) = inr tt -> k = Z.to_nat n)))
  /\ (dict_get (PyStr "VolumeUp") (_irc_codes self) = None ->
      volume_up device str self (Some n) tr
      = (if n =? 0 then inr tt else inl (KeyError (PyStr "VolumeUp")), tr))
  /\ (dict_get (PyStr "VolumeDown") (_irc_codes self) = None ->
      volume_down device str self (Some n) tr
      = (if n =? 0 then inr tt else inl (KeyError (PyStr "VolumeDown")), tr)).
Proof.
  intros Hn. unfold volume_up, volume_down.
  split; [reflexivity |]. split; [reflexivity |].
  rewrite <- (length_range n).
  split; [| split; [| split]].
  - intros up Hup. split; [| split].
    + intros Hok. apply (dispatch_loop_all device str self "VolumeUp" up _ Hup tr Hok).
    + intros j e Hj Hok He.
      apply (dispatch_loop_refused device str self "VolumeUp" up _ Hup j tr e Hj Hok He).
    + apply (dispatch_loop_bound device str self "VolumeUp" up _ Hup).
  - intros down Hdown. split; [| split].
    + intros Hok. apply (dispatch_loop_all device str self "VolumeDown" down _ Hdown tr Hok).
    + intros j e Hj Hok He.
      apply (dispatch_loop_refused device str self "VolumeDown" down _ Hdown j tr e Hj Hok He).
    + apply (dispatch_loop_bound device str self "VolumeDown" down _ Hdown).
  - intros Hup. rewrite (dispatch_loop_missing device str self "VolumeUp" _ tr Hup).
    f_equal. apply range_empty. exact Hn.
  - intros Hdown. rewrite (dispatch_loop_missing device str self "VolumeDown" _ tr Hdown).
    f_equal. apply range_empty. exact Hn.
Qed.

Lemma paired_tv_accepts (v : pyvalue) (tr : trace) :
  accepts (serve "192.168.1.20" paired_tv) tr (ircc_request str_unused session v).
Proof.
  exists (reply 200 None None). split; reflexivity.
Defined.

(** A television that wears out after four requests takes the first
    four dispatches of a session that starts with an empty trace. *)
Lemma worn_out_accepts_four (v : pyvalue) (i : nat) :
  (i < 4)%nat ->
  accepts (worn_out 4 "192.168.1.20" paired_tv)
    ([] ++ repeat (Post (ircc_request str_unused session v)) i)
    (ircc_request str_unused session v).
Proof.
  intros Hi. exists (reply 200 None None).
  destruct i as [| [| [| [| i]]]]; [split; reflexivity .. | lia].
Defined.

Lemma volume_dispatches_witness :
  0 <= 3
  /\ 0 <= 5
  /\ dict_get (PyStr "VolumeUp") (_irc_codes session) = Some (PyStr "AAAAAQAAAAEAAAASAw==")
  /\ dict_get (PyStr "VolumeDown") (_irc_codes session) = Some (PyStr "AAAAAQAAAAEAAAATAw==")
  /\ volume_up (serve "192.168.1.20" paired_tv) str_unused session (Some 3) []
     = (inr tt,
        [] ++ repeat (Post (ircc_request str_unused session (PyStr "AAAAAQAAAAEAAAASAw=="))) 3)
  /\ volume_down (serve "192.168.1.20" paired_tv) str_unused session (Some 3) []
     = (inr tt,
        [] ++ repeat (Post (ircc_request str_unused session (PyStr "AAAAAQAAAAEAAAATAw=="))) 3)
  /\ (4 < Z.to_nat 5)%nat
  /\ fst (_send_irc_code (worn_out 4 "192.168.1.20" paired_tv) str_unused session "VolumeUp"
            ([] ++ repeat (Post (ircc_request str_unused session
                                   (PyStr "AAAAAQAAAAEAAAASAw=="))) 4))
     = inl (RuntimeError (ArgResponse (reply 500 None None)))
  /\ volume_up (worn_out 4 "192.168.1.20" paired_tv) str_unused session (Some 5) []
     = (inl (RuntimeError (ArgResponse (reply 500 None None))),
        [] ++ repeat (Post (ircc_request str_unused session (PyStr "AAAAAQAAAAEAAAASAw=="))) 5).
Proof.
  split; [lia |]. split; [lia |]. split; [reflexivity |]. split; [reflexivity |].
  destruct (volume_dispatches (serve "192.168.1.20" paired_tv) str_unused session 3 []
              ltac:(lia))
    as [_ [_ [Hup [Hdown _]]]].
  destruct (Hup (PyStr "AAAAAQAAAAEAAAASAw==") eq_refl) as [Hup_all _].
  destruct (Hdown (PyStr "AAAAAQAAAAEAAAATAw==") eq_refl) as [Hdown_all _].
  split; [apply Hup_all; intros i _; apply paired_tv_accepts |].
  split; [apply Hdown_all; intros i _; apply paired_tv_accepts |].
  split; [simpl; lia |]. split; [reflexivity |].
  destruct (volume_dispatches (worn_out 4 "192.168.1.20" paired_tv) str_unused session 5 []
              ltac:(lia))
    as [_ [_ [Hworn _]]].
  destruct (Hworn (PyStr "AAAAAQAAAAEAAAASAw==") eq_refl) as [_ [Hrefused _]].
  apply (Hrefused 4%nat (RuntimeError (ArgResponse (reply 500 None None)))).
  - simpl. lia.
  - intros i Hi. apply worn_out_accepts_four. exact Hi.
  - reflexivity.
Defined.

(** ** Pairing *)

Lemma TV_init_run device key config tr :
  TV_init device key config tr
  = (and_then (answered device tr (irc_codes_request config) read_codes)
       (fun codes => inr {| auth_key := key; config := config; _irc_codes := codes |}),
     tr ++ [Post (irc_codes_request config)]).
Proof.
  unfold TV_init, bind. rewrite irc_codes_run.
  destruct (answered device tr (irc_codes_request config) read_codes); reflexivity.
Qed.

(** [connect] after a first attempt that gave a credential. *)
Lemma connect_paired device config callback tr a key :
  fst (_attempt_auth device config None tr) = inr a ->
  credential a = Some key ->
  connect device config callback tr
  = TV_init device key config (tr ++ [Post (auth_request config None)]).
Proof.
  intros Ha Hkey. unfold connect, bind at 1.
  rewrite attempt_auth_run in *. simpl in Ha. rewrite Ha, Hkey. reflexivity.
Qed.

(** [connect] after a first attempt that gave none and a callback that
    gave a pincode. *)
Lemma connect_unpaired device config callback tr a pin :
  fst (_attempt_auth device config None tr) = inr a ->
  credential a = None ->
  callback (tr ++ [Post (auth_request config None)]) = inr pin ->
  connect device config callback tr
  = bind (_attempt_auth device config (Some pin))
      (fun auth_key =>
         match credential auth_key with
         | Some key => TV_init device key config
         | None => raise (RuntimeError (ArgText "Could not pair with the TV"))
         end)
      (tr ++ [Post (auth_request config None)] ++ [Callback]).
Proof.
  intros Ha Hnone Hpin. unfold connect, bind at 1.
  rewrite attempt_auth_run in *. simpl in Ha. rewrite Ha, Hnone.
  unfold bind at 1, call. rewrite Hpin, <- app_assoc. reflexivity.
Qed.

(** C2. When the first attempt returns an outcome that is not a
    credential, the callback gives a pincode, and the attempt with that
    pincode returns an outcome that is not a credential either,
    [connect] ends with [RuntimeError('Could not pair with the TV')]
    and has made exactly two requests, both to [/sony/accessControl],
    the callback in between. *)
Theorem connect_both_attempts_fail device config callback tr a1 pin a2 :
  fst (_attempt_auth device config None tr) = inr a1 ->
  credential a1 = None ->
  callback (tr ++ [Post (auth_request config None)]) = inr pin ->
  fst (_attempt_auth device config (Some pin)
         (tr ++ [Post (auth_request config None)] ++ [Callback])) = inr a2 ->
  credential a2 = None ->
  connect device config callback tr
  = (inl (RuntimeError (ArgText "Could not pair with the TV")),
     tr ++ [Post (auth_request config None); Callback; Post (auth_request config (Some pin))])
  /\ posts (snd (connect device config callback tr))
     = posts tr ++ [auth_request config None; auth_request config (Some pin)]
  /\ req_url (auth_request config None)
     = ("http://" ++ host config ++ "/sony/accessControl")%string
  /\ req_url (auth_request config (Some pin))
     = ("http://" ++ host config ++ "/sony/accessControl")%string.
Proof.
  intros H1 N1 Hpin H2 N2.
  assert (Hrun : connect device config callback tr
    = (inl (RuntimeError (ArgText "Could not pair with the TV")),
       tr ++ [Post (auth_request config None); Callback;
              Post (auth_request config (Some pin))])).
  { rewrite (connect_unpaired device config callback tr a1 pin H1 N1 Hpin).
    unfold bind. rewrite attempt_auth_run in *. cbn [fst] in H2. rewrite H2, N2.
    unfold raise. rewrite <- !app_assoc. reflexivity. }
  rewrite Hrun. repeat split.
  simpl. rewrite posts_app. reflexivity.
Qed.

Lemma connect_both_attempts_fail_witness :
  fst (_attempt_auth (serve "192.168.1.20" pairing_tv) living_room None []) = inr AuthFalse
  /\ credential AuthFalse = None
  /\ types_0000 ([] ++ [Post (auth_request living_room None)]) = inr "0000"%string
  /\ fst (_attempt_auth (serve "192.168.1.20" pairing_tv) living_room (Some "0000"%string)
            ([] ++ [Post (auth_request living_room None)] ++ [Callback])) = inr AuthFalse
  /\ connect (serve "192.168.1.20" pairing_tv) living_room types_0000 []
     = (inl (RuntimeError (ArgText "Could not pair with the TV")),
        [] ++ [Post (auth_request living_room None); Callback;
               Post (auth_request living_room (Some "0000"%string))]).
Proof.
  repeat (split; [reflexivity |]).
  apply (connect_both_attempts_fail (serve "192.168.1.20" pairing_tv) living_room types_0000 []
           AuthFalse "0000"%string AuthFalse); reflexivity.
Defined.

(** C3, as the claim has it, fails: [closed_tv] gives a credential at
    the first attempt, and [connect] returns no session, as the
    controller info it fetches for the session has no [result]. *)
Lemma connect_paired_without_session :
  fst (_attempt_auth (serve "192.168.1.20" closed_tv) living_room None [])
  = inr (AuthCookie "auth=0123abcd; path=/sony/")
  /\ credential (AuthCookie "auth=0123abcd; path=/sony/") = Some "auth=0123abcd; path=/sony/"%string
  /\ fst (connect (serve "192.168.1.20" closed_tv) living_room types_4711 [])
     = inl (KeyError (PyStr "result"))
  /\ (forall tv : TV,
       fst (connect (serve "192.168.1.20" closed_tv) living_room types_4711 []) <> inr tv).
Proof. repeat split. discriminate. Qed.

(** C3, amended. When the first attempt gives a credential, [connect]
    never calls the callback and makes no second attempt: after the
    pairing request it only fetches the codes.  It returns the session
    with that credential and those codes when that fetch succeeds, and
    ends with the error of the fetch when it does not. *)
Theorem connect_first_attempt device config callback tr a key :
  fst (_attempt_auth device config None tr) = inr a ->
  credential a = Some key ->
  callbacks (snd (connect device config callback tr)) = callbacks tr
  /\ posts (snd (connect device config callback tr))
     = posts tr ++ [auth_request config None; irc_codes_request config]
  /\ (forall codes,
        fst (irc_codes device config (tr ++ [Post (auth_request config None)])) = inr codes ->
        fst (connect device config callback tr)
        = inr {| auth_key := key; config := config; _irc_codes := codes |})
  /\ (forall e,
        fst (irc_codes device config (tr ++ [Post (auth_request config None)])) = inl e ->
        fst (connect device config callback tr) = inl e).
Proof.
  intros Ha Hkey.
  rewrite (connect_paired device config callback tr a key Ha Hkey), TV_init_run.
  rewrite irc_codes_run. simpl.
  repeat split.
  - rewrite !callbacks_app. simpl. lia.
  - rewrite !posts_app, <- app_assoc. reflexivity.
  - intros codes ->. reflexivity.
  - intros e ->. reflexivity.
Qed.

Lemma connect_first_attempt_witness :
  fst (_attempt_auth (serve "192.168.1.20" paired_tv) living_room None [])
  = inr (AuthCookie "auth=0123abcd; path=/sony/")
  /\ credential (AuthCookie "auth=0123abcd; path=/sony/") = Some "auth=0123abcd; path=/sony/"%string
  /\ callbacks (snd (connect (serve "192.168.1.20" paired_tv) living_room types_4711 []))
     = callbacks []
  /\ fst (connect (serve "192.168.1.20" paired_tv) living_room types_4711 []) = inr session.
Proof.
  split; [reflexivity |]. split; [reflexivity |].
  destruct (connect_first_attempt (serve "192.168.1.20" paired_tv) living_room types_4711 []
              (AuthCookie "auth=0123abcd; path=/sony/") "auth=0123abcd; path=/sony/"%string
              eq_refl eq_refl) as [Hcb [_ [Hok _]]].
  split; [exact Hcb |].
  apply (Hok (_irc_codes session)). reflexivity.
Defined.

(** C4, as the claim has it, fails: [closed_pairing_tv] refuses the
    first attempt and gives a credential for the pincode of the
    callback, and [connect] returns no session, as the controller info
    has no [result]. *)
Lemma connect_pincode_without_session :
  fst (_attempt_auth (serve "192.168.1.20" closed_pairing_tv) living_room None []) = inr AuthFalse
  /\ types_4711 [Post (auth_request living_room None)] = inr "4711"%string
  /\ fst (_attempt_auth (serve "192.168.1.20" closed_pairing_tv) living_room (Some "4711"%string)
            [Post (auth_request living_room None); Callback])
     = inr (AuthCookie "auth=89ab; path=/sony/")
  /\ credential (AuthCookie "auth=89ab; path=/sony/") = Some "auth=89ab; path=/sony/"%string
  /\ fst (connect (serve "192.168.1.20" closed_pairing_tv) living_room types_4711 [])
     = inl (KeyError (PyStr "result"))
  /\ (forall tv : TV,
       fst (connect (serve "192.168.1.20" closed_pairing_tv) living_room types_4711 [])
       <> inr tv).
Proof. repeat split. discriminate. Qed.

(** C4, amended. When the first attempt gives no credential and the
    attempt with the pincode of the callback gives one, [connect] has
    called the callback exactly once, between the two pairing requests.
    It returns the session with that credential when the fetch of the
    codes succeeds, and ends with the error of the fetch when it does
    not. *)
Theorem connect_second_attempt device config callback tr a1 pin a2 key :
  fst (_attempt_auth device config None tr) = inr a1 ->
  credential a1 = None ->
  callback (tr ++ [Post (auth_request config None)]) = inr pin ->
  fst (_attempt_auth device config (Some pin)
         (tr ++ [Post (auth_request config None)] ++ [Callback])) = inr a2 ->
  credential a2 = Some key ->
  callbacks (snd (connect device config callback tr)) = S (callbacks tr)
  /\ snd (connect device config callback tr)
     = tr ++ [Post (auth_request config None); Callback;
              Post (auth_request config (Some pin)); Post (irc_codes_request config)]
  /\ (forall codes,
        fst (irc_codes device config
               (tr ++ [Post (auth_request config None); Callback;
                       Post (auth_request config (Some pin))])) = inr codes ->
        fst (connect device config callback tr)
        = inr {| auth_key := key; config := config; _irc_codes := codes |})
  /\ (forall e,
        fst (irc_codes device config
               (tr ++ [Post (auth_request config None); Callback;
                       Post (auth_request config (Some pin))])) = inl e ->
        fst (connect device config callback tr) = inl e).
Proof.
  intros H1 N1 Hpin H2 Hkey.
  rewrite (connect_unpaired device config callback tr a1 pin H1 N1 Hpin).
  unfold bind. rewrite attempt_auth_run in *. cbn [fst] in H2. rewrite H2, Hkey.
  rewrite TV_init_run, irc_codes_run.
  replace ((tr ++ [Post (auth_request config None)] ++ [Callback])
           ++ [Post (auth_request config (Some pin))])
    with (tr ++ [Post (auth_request config None); Callback;
                 Post (auth_request config (Some pin))])
    by (rewrite <- !app_assoc; reflexivity).
  simpl. repeat split.
  - rewrite !callbacks_app. simpl. lia.
  - rewrite <- app_assoc. reflexivity.
  - intros codes ->. reflexivity.
  - intros e ->. reflexivity.
Qed.

Lemma connect_second_attempt_witness :
  fst (_attempt_auth (serve "192.168.1.20" pairing_tv) living_room None []) = inr AuthFalse
  /\ credential AuthFalse = None
  /\ types_4711 ([] ++ [Post (auth_request living_room None)]) = inr "4711"%string
  /\ fst (_attempt_auth (serve "192.168.1.20" pairing_tv) living_room (Some "4711"%string)
            ([] ++ [Post (auth_request living_room None)] ++ [Callback]))
     = inr (AuthCookie "auth=89ab; path=/sony/")
  /\ credential (AuthCookie "auth=89ab; path=/sony/") = Some "auth=89ab; path=/sony/"%string
  /\ callbacks (snd (connect (serve "192.168.1.20" pairing_tv) living_room types_4711 []))
     = S (callbacks [])
  /\ fst (connect (serve "192.168.1.20" pairing_tv) living_room types_4711 [])
     = inr {| auth_key := "auth=89ab; path=/sony/"; config := living_room;
              _irc_codes := _irc_codes session |}.
Proof.
  do 5 (split; [reflexivity |]).
  destruct (connect_second_attempt (serve "192.168.1.20" pairing_tv) living_room types_4711 []
              AuthFalse "4711"%string (AuthCookie "auth=89ab; path=/sony/")
              "auth=89ab; path=/sony/"%string eq_refl eq_refl eq_refl eq_refl eq_refl)
    as [Hcb [_ [Hok _]]].
  split; [exact Hcb |].
  apply (Hok (_irc_codes session)). reflexivity.
Defined.

(** C10. A pairing answer with status 200 and no [Set-Cookie] header
    makes [_attempt_auth] end with the [KeyError] of
    [response.headers['Set-Cookie']]: it returns neither a credential
    nor [False].  At the first attempt [connect] ends with that
    [KeyError] too, after one request, without a call of the callback,
    and not with the [RuntimeError] of a failed pairing. *)
Theorem attempt_auth_without_cookie device config pincode callback tr resp :
  device tr (auth_request config pincode) = Some resp ->
  status_code resp = 200 ->
  headers resp "Set-Cookie" = None ->
  _attempt_auth device config pincode tr
  = (inl (KeyError (PyStr "set-cookie")), tr ++ [Post (auth_request config pincode)])
  /\ (pincode = None ->
      connect device config callback tr
      = (inl (KeyError (PyStr "set-cookie")), tr ++ [Post (auth_request config None)])
      /\ callbacks (snd (connect device config callback tr)) = callbacks tr
      /\ fst (connect device config callback tr)
         <> inl (RuntimeError (ArgText "Could not pair with the TV"))).
Proof.
  intros Hd Hs Hh.
  assert (Hrun : _attempt_auth device config pincode tr
    = (inl (KeyError (PyStr "set-cookie")), tr ++ [Post (auth_request config pincode)])).
  { rewrite attempt_auth_run. unfold answered, read_auth, get_header.
    rewrite Hd, Hs, Hh. reflexivity. }
  split; [exact Hrun |].
  intros ->.
  assert (Hc : connect device config callback tr
    = (inl (KeyError (PyStr "set-cookie")), tr ++ [Post (auth_request config None)])).
  { unfold connect, bind. rewrite Hrun. reflexivity. }
  rewrite Hc. simpl. repeat split.
  - rewrite callbacks_app. simpl. lia.
  - discriminate.
Qed.

Lemma attempt_auth_without_cookie_witness :
  serve "192.168.1.20" cookieless_tv [] (auth_request living_room None)
  = Some (reply 200 None None)
  /\ status_code (reply 200 None None) = 200
  /\ headers (reply 200 None None) "Set-Cookie" = None
  /\ connect (serve "192.168.1.20" cookieless_tv) living_room types_4711 []
     = (inl (KeyError (PyStr "set-cookie")), [] ++ [Post (auth_request living_room None)]).
Proof.
  repeat (split; [reflexivity |]).
  apply (attempt_auth_without_cookie (serve "192.168.1.20" cookieless_tv) living_room None
           types_4711 [] (reply 200 None None) eq_refl eq_refl eq_refl).
  reflexivity.
Defined.

(** ** Power state *)

Lemma eq_str_true (v : pyvalue) (s : string) : eq_str v s = true <-> v = PyStr s.
Proof.
  destruct v; simpl; try (split; [discriminate | intros H; discriminate H]).
  rewrite String.eqb_eq. split; [intros -> | intros [= ->]]; reflexivity.
Qed.

Lemma position_nat (n len : nat) :
  position (Z.of_nat n) len = if (n <? len)%nat then Some n else None.
Proof.
  unfold position. destruct (Nat.ltb_spec n len) as [Hlt | Hge].
  - replace (0 <=? Z.of_nat n) with true by (symmetry; apply Z.leb_le; lia).
    replace (Z.of_nat n <? Z.of_nat len) with true by (symmetry; apply Z.ltb_lt; lia).
    simpl. rewrite Nat2Z.id. reflexivity.
  - replace (Z.of_nat n <? Z.of_nat len) with false by (symmetry; apply Z.ltb_ge; lia).
    replace (Z.of_nat n <? 0) with false by (symmetry; apply Z.ltb_ge; lia).
    rewrite !andb_false_r. reflexivity.
Qed.

(** [items[n]] is the element at [n], or an [IndexError]. *)
Lemma getitem_int_list (items : list pyvalue) (n : nat) :
  getitem_int (PyList items) (Z.of_nat n)
  = match nth_error items n with
    | Some x => inr x
    | None => inl IndexError
    end.
Proof.
  unfold getitem_int. rewrite position_nat.
  destruct (Nat.ltb_spec n (List.length items)) as [Hlt | Hge]; [reflexivity |].
  apply nth_error_None in Hge. rewrite Hge. reflexivity.
Qed.

(** C5. For an answer with status 200 whose body decodes to an object
    with a [result] array, the first element of which has a [status],
    [is_on] returns a boolean that is true exactly when that status is
    the string [active]; for any other string, [Active] for one, it is
    false. *)
Theorem is_on_iff_active device self tr resp top first rest status :
  device tr (is_on_request (config self)) = Some resp ->
  status_code resp = 200 ->
  json resp = Some (PyDict top) ->
  dict_find "result" top = Some (PyList (PyDict first :: rest)) ->
  dict_find "status" first = Some status ->
  exists b,
    is_on device self tr = (inr b, tr ++ [Post (is_on_request (config self))])
    /\ (b = true <-> status = PyStr "active")
    /\ (forall s, status = PyStr s -> s <> "active"%string -> b = false)
    /\ (status = PyStr "Active" -> b = false).
Proof.
  intros Hd Hs Hj Hres Hst. exists (eq_str status "active").
  split; [| split; [| split]].
  - rewrite is_on_run. unfold answered, read_power, get_json. rewrite Hd, Hs, Hj.
    change (negb (200 =? 200)) with false. cbv beta iota. unfold and_then at 1.
    unfold getitem_str at 1. rewrite Hres. unfold and_then at 1.
    change 0 with (Z.of_nat 0). rewrite getitem_int_list. simpl nth_error.
    unfold and_then at 1. unfold getitem_str. rewrite Hst. reflexivity.
  - apply eq_str_true.
  - intros s -> Hne. simpl. apply String.eqb_neq. exact Hne.
  - intros ->. reflexivity.
Qed.

Lemma is_on_iff_active_witness :
  serve "192.168.1.20" pairing_tv [] (is_on_request (config session))
  = Some (reply 200 None (Some (power "standby")))
  /\ exists b,
       is_on (serve "192.168.1.20" pairing_tv) session []
       = (inr b, [] ++ [Post (is_on_request (config session))])
       /\ (b = true <-> PyStr "standby" = PyStr "active").
Proof.
  split; [reflexivity |].
  destruct (is_on_iff_active (serve "192.168.1.20" pairing_tv) session []
              (reply 200 None (Some (power "standby")))
              [("result", PyList [PyDict [("status", PyStr "standby")]]); ("id", PyInt 10)]
              [("status", PyStr "standby")] [] (PyStr "standby")
              eq_refl eq_refl eq_refl eq_refl eq_refl) as [b [Hrun [Hiff _]]].
  exists b. split; assumption.
Defined.

(** ** Discovery of the codes *)

(** A string is equal, as a key, to that string only. *)
Lemma key_eqb_str_congr (n : string) (k k' : pyvalue) :
  key_eqb k k' = true -> key_eqb (PyStr n) k = key_eqb (PyStr n) k'.
Proof.
  destruct k, k'; simpl; intros H; try reflexivity; try discriminate H.
  apply String.eqb_eq in H. subst. reflexivity.
Qed.

Lemma dict_get_put (n : string) (k v : pyvalue) (d : pydict) :
  dict_get (PyStr n) (dict_put k v d)
  = if key_eqb (PyStr n) k then Some v else dict_get (PyStr n) d.
Proof.
  unfold dict_get. induction d as [| [k' v'] d IH]; cbn [dict_put find fst].
  - destruct (key_eqb (PyStr n) k); reflexivity.
  - destruct (key_eqb k k') eqn:Hk; cbn [find fst].
    + rewrite <- (key_eqb_str_congr n k k' Hk).
      destruct (key_eqb (PyStr n) k); reflexivity.
    + destruct (key_eqb (PyStr n) k') eqn:Hn.
      * destruct (key_eqb (PyStr n) k) eqn:Hnk; [| reflexivity].
        exfalso. destruct k, k'; simpl in Hk, Hn, Hnk; try discriminate.
        apply String.eqb_eq in Hn, Hnk. subst. rewrite String.eqb_refl in Hk. discriminate.
      * exact IH.
Qed.

Lemma stored_keyed_record (entry : pyvalue) (d : pydict) :
  is_keyed_record entry ->
  exists n x,
    stored entry d = inr (dict_put n x d)
    /\ (forall name, named name entry = key_eqb (PyStr name) n)
    /\ value_of entry = Some x.
Proof.
  intros [fields [n [x [-> [Hn [Hh Hx]]]]]]. exists n, x.
  unfold stored, getitem_str, dict_setitem, named, value_of.
  rewrite Hx, Hn. simpl. rewrite Hh. repeat split.
Qed.

(** The loop over records that all have a name and a value: the
    dictionary it leaves maps a name to the value of the last record of
    that name, and otherwise to what it mapped it to before. *)
Lemma collected_keyed_records (records : list pyvalue) :
  Forall is_keyed_record records ->
  forall d,
  exists d',
    collected records d = inr d'
    /\ forall name,
         dict_get (PyStr name) d'
         = match mapped records name with
           | Some x => Some x
           | None => dict_get (PyStr name) d
           end.
Proof.
  induction 1 as [| r rest Hr Hrest IH]; intros d.
  - exists d. split; reflexivity.
  - destruct (stored_keyed_record r d Hr) as [n [x [Hst [Hnamed Hval]]]].
    destruct (IH (dict_put n x d)) as [d' [Hcol Hget]].
    exists d'. split.
    + simpl. rewrite Hst. exact Hcol.
    + intros name. rewrite Hget. simpl.
      destruct (mapped rest name); [reflexivity |].
      rewrite dict_get_put, Hnamed, Hval.
      destruct (key_eqb (PyStr name) n); reflexivity.
Qed.

Lemma append_assoc (a b c : string) : ((a ++ b) ++ c = a ++ (b ++ c))%string.
Proof.
  induction a as [| x a IH]; simpl; [reflexivity | rewrite IH; reflexivity].
Qed.

Lemma contains_envelope (irc_code : string) : contains irc_code (envelope irc_code).
Proof.
  exists (envelope_head ++ "<IRCCCode>")%string, ("</IRCCCode>" ++ envelope_tail)%string.
  unfold envelope. rewrite append_assoc. reflexivity.
Qed.

(** C6. For an answer with status 200 whose body decodes to an object
    with a [result] array, the second element of which is a list of
    records with a name (a key) and a value, [irc_codes] returns, after
    its one request, the mapping that takes each name to the value of
    the record of that name, the last one if a name comes twice.  For
    the body of the example the mapping takes [Mute] to
    [AAAAAQAAAAEAAAAUAw==], and [mute], on a session with that mapping,
    sends one request, the body of which contains that code. *)
Theorem irc_codes_maps_names device str config tr resp top items records :
  device tr (irc_codes_request config) = Some resp ->
  status_code resp = 200 ->
  json resp = Some (PyDict top) ->
  dict_find "result" top = Some (PyList items) ->
  nth_error items 1 = Some (PyList records) ->
  Forall is_keyed_record records ->
  exists codes,
    irc_codes device config tr = (inr codes, tr ++ [Post (irc_codes_request config)])
    /\ (forall name, dict_get (PyStr name) codes = mapped records name)
    /\ (PyDict top = mute_only ->
        dict_get (PyStr "Mute") codes = Some (PyStr "AAAAAQAAAAEAAAAUAw==")
        /\ forall self tr',
             _irc_codes self = codes ->
             exists r payload,
               snd (mute device str self tr') = tr' ++ [Post r]
               /\ req_data r = text payload
               /\ contains "AAAAAQAAAAEAAAAUAw==" payload).
Proof.
  intros Hd Hs Hj Hres Hsnd Hrec.
  destruct (collected_keyed_records records Hrec []) as [codes [Hcol Hget]].
  exists codes.
  assert (Hmap : forall name, dict_get (PyStr name) codes = mapped records name).
  { intros name. rewrite Hget. destruct (mapped records name); reflexivity. }
  split; [| split; [exact Hmap |]].
  - rewrite irc_codes_run. unfold answered, read_codes, get_json. rewrite Hd, Hs, Hj.
    change (negb (200 =? 200)) with false. cbv beta iota. unfold and_then at 1.
    unfold getitem_str. rewrite Hres. unfold and_then at 1.
    change 1 with (Z.of_nat 1). rewrite getitem_int_list, Hsnd.
    simpl. rewrite Hcol. reflexivity.
  - intros Htop. injection Htop as ->. simpl in Hres. injection Hres as <-.
    simpl in Hsnd. injection Hsnd as <-.
    assert (Hmute : dict_get (PyStr "Mute") codes = Some (PyStr "AAAAAQAAAAEAAAAUAw==")).
    { rewrite Hmap. reflexivity. }
    split; [exact Hmute |].
    intros self tr' Hself. rewrite <- Hself in Hmute.
    exists (ircc_request str self (PyStr "AAAAAQAAAAEAAAAUAw==")),
           (envelope "AAAAAQAAAAEAAAAUAw==").
    unfold mute. rewrite (send_irc_code_run device str self "Mute" _ tr' Hmute).
    repeat split. apply contains_envelope.
Qed.

Lemma mute_record_keyed : Forall is_keyed_record [record_of "Mute" "AAAAAQAAAAEAAAAUAw=="].
Proof.
  constructor; [| constructor].
  exists [("name", PyStr "Mute"); ("value", PyStr "AAAAAQAAAAEAAAAUAw==")],
         (PyStr "Mute"), (PyStr "AAAAAQAAAAEAAAAUAw==").
  repeat split.
Defined.

Lemma irc_codes_maps_names_witness :
  serve "192.168.1.20" mute_tv [] (irc_codes_request living_room)
  = Some (reply 200 None (Some mute_only))
  /\ Forall is_keyed_record [record_of "Mute" "AAAAAQAAAAEAAAAUAw=="]
  /\ exists codes,
       irc_codes (serve "192.168.1.20" mute_tv) living_room []
       = (inr codes, [] ++ [Post (irc_codes_request living_room)])
       /\ dict_get (PyStr "Mute") codes = Some (PyStr "AAAAAQAAAAEAAAAUAw==").
Proof.
  split; [reflexivity |]. split; [exact mute_record_keyed |].
  destruct (irc_codes_maps_names (serve "192.168.1.20" mute_tv) str_unused living_room []
              (reply 200 None (Some mute_only))
              [("result", PyList [PyDict []; PyList [record_of "Mute" "AAAAAQAAAAEAAAAUAw=="]])]
              [PyDict []; PyList [record_of "Mute" "AAAAAQAAAAEAAAAUAw=="]]
              [record_of "Mute" "AAAAAQAAAAEAAAAUAw=="]
              eq_refl eq_refl eq_refl eq_refl eq_refl mute_record_keyed)
    as [codes [Hrun [_ Hex]]].
  exists codes. split; [exact Hrun |].
  apply Hex. reflexivity.
Defined.

(** *** What makes the discovery fail *)

Lemma getitem_str_fault (v : pyvalue) (k : string) (e : error) :
  getitem_str v k = inl e -> lookup_fault e = true.
Proof.
  destruct v; simpl; try (intros [= <-]; reflexivity).
  destruct (dict_find k fields); [discriminate | intros [= <-]; reflexivity].
Qed.

Lemma getitem_str_dict (v : pyvalue) (k : string) (x : pyvalue) :
  getitem_str v k = inr x -> exists fields, v = PyDict fields /\ dict_find k fields = Some x.
Proof.
  destruct v; simpl; try discriminate.
  destruct (dict_find k fields) as [y |] eqn:Hy; [| discriminate].
  intros [= <-]. exists fields. split; [reflexivity | exact Hy].
Qed.

Lemma getitem_int_fault (v : pyvalue) (i : Z) (e : error) :
  getitem_int v i = inl e -> lookup_fault e = true.
Proof.
  destruct v; simpl; try (intros [= <-]; reflexivity).
  - destruct (position i (String.length s)) as [n |]; [| intros [= <-]; reflexivity].
    destruct (String.get n s); [discriminate | intros [= <-]; reflexivity].
  - destruct (position i (List.length items)) as [n |]; [| intros [= <-]; reflexivity].
    destruct (nth_error items n); [discriminate | intros [= <-]; reflexivity].
Qed.

Lemma iterate_fault (v : pyvalue) (e : error) :
  iterate v = inl e -> lookup_fault e = true.
Proof.
  destruct v; simpl; try discriminate; intros [= <-]; reflexivity.
Qed.

Lemma stored_fault (entry : pyvalue) (d : pydict) (e : error) :
  stored entry d = inl e -> lookup_fault e = true.
Proof.
  unfold stored.
  destruct (getitem_str entry "value") as [e1 | value] eqn:Hv; simpl.
  - intros [= <-]. exact (getitem_str_fault _ _ _ Hv).
  - destruct (getitem_str entry "name") as [e2 | name] eqn:Hn; simpl.
    + intros [= <-]. exact (getitem_str_fault _ _ _ Hn).
    + unfold dict_setitem. destruct (hashable name); [discriminate | intros [= <-]; reflexivity].
Qed.

Lemma stored_record (entry : pyvalue) (d d' : pydict) :
  stored entry d = inr d' -> is_record entry.
Proof.
  unfold stored.
  destruct (getitem_str entry "value") as [e1 | value] eqn:Hv; simpl; [discriminate |].
  destruct (getitem_str entry "name") as [e2 | name] eqn:Hn; simpl; [discriminate |].
  intros _.
  destruct (getitem_str_dict _ _ _ Hv) as [fields [-> Hvalue]].
  destruct (getitem_str_dict _ _ _ Hn) as [fields' [[= <-] Hname]].
  exists fields, name, value. repeat split; assumption.
Qed.

(** The loop fails with a fault of a lookup only, and when it comes
    through, every entry was a record. *)
Lemma collected_fault (entries : list pyvalue) :
  forall d e, collected entries d = inl e -> lookup_fault e = true.
Proof.
  induction entries as [| x rest IH]; intros d e; simpl; [discriminate |].
  destruct (stored x d) as [e1 | d1] eqn:Hst; simpl.
  - intros [= <-]. exact (stored_fault _ _ _ Hst).
  - apply IH.
Qed.

Lemma collected_records (entries : list pyvalue) :
  forall d d', collected entries d = inr d' -> Forall is_record entries.
Proof.
  induction entries as [| x rest IH]; intros d d'; simpl; [constructor |].
  destruct (stored x d) as [e1 | d1] eqn:Hst; simpl; [discriminate |].
  intros H. constructor; [exact (stored_record _ _ _ Hst) | exact (IH _ _ H)].
Qed.

Lemma read_codes_fault (resp : response) (e : error) :
  status_code resp = 200 -> read_codes resp = inl e -> lookup_fault e = true.
Proof.
  intros Hs. unfold read_codes, get_json. rewrite Hs.
  change (negb (200 =? 200)) with false. cbv beta iota.
  destruct (json resp) as [data |]; simpl; [| intros [= <-]; reflexivity].
  destruct (getitem_str data "result") as [e1 | result] eqn:H1; simpl.
  { intros [= <-]. exact (getitem_str_fault _ _ _ H1). }
  destruct (getitem_int result 1) as [e2 | second] eqn:H2; simpl.
  { intros [= <-]. exact (getitem_int_fault _ _ _ H2). }
  destruct (iterate second) as [e3 | entries] eqn:H3; simpl.
  { intros [= <-]. exact (iterate_fault _ _ H3). }
  apply collected_fault.
Qed.

(** When the discovery comes through, the body had the expected
    structure, or an empty object or string in the place of the list. *)
Lemma read_codes_success (resp : response) (v : pyvalue) (codes : pydict) :
  status_code resp = 200 ->
  json resp = Some v ->
  read_codes resp = inr codes ->
  expected_structure v \/ (empty_second v /\ codes = []).
Proof.
  intros Hs Hj. unfold read_codes, get_json. rewrite Hs, Hj.
  change (negb (200 =? 200)) with false. cbv beta iota. unfold and_then at 1.
  destruct (getitem_str v "result") as [e1 | result] eqn:H1; [discriminate |].
  destruct (getitem_str_dict _ _ _ H1) as [top [-> Htop]].
  unfold and_then at 1.
  destruct result as [| b | n | q | s | items | fields]; try discriminate.
  - (* the result is a string: its second character is no record *)
    unfold getitem_int.
    destruct (position 1 (String.length s)) as [n |]; [| discriminate].
    destruct (String.get n s) as [c |]; [| discriminate].
    discriminate.
  - change 1 with (Z.of_nat 1). rewrite getitem_int_list.
    destruct (nth_error items 1) as [second |] eqn:H2; [| discriminate].
    unfold and_then at 1.
    destruct second as [| b | n | q | s | records | fields]; try discriminate.
    + destruct s as [| c s]; [| discriminate].
      intros [= <-]. right. split; [| reflexivity].
      exists top, items, (PyStr EmptyString). repeat split; try assumption.
      right. reflexivity.
    + intros H. left. exists top, items, records.
      repeat split; try assumption. exact (collected_records _ _ _ H).
    + destruct fields as [| f fields]; [| discriminate].
      intros [= <-]. right. split; [| reflexivity].
      exists top, items, (PyDict []). repeat split; try assumption.
      left. reflexivity.
Qed.

Lemma read_codes_empty_second (resp : response) (v : pyvalue) :
  status_code resp = 200 ->
  json resp = Some v ->
  empty_second v ->
  read_codes resp = inr [].
Proof.
  intros Hs Hj [top [items [second [-> [Htop [H2 Hsecond]]]]]].
  unfold read_codes, get_json. rewrite Hs, Hj.
  change (negb (200 =? 200)) with false. cbv beta iota. unfold and_then at 1.
  unfold getitem_str. rewrite Htop. unfold and_then at 1.
  change 1 with (Z.of_nat 1). rewrite getitem_int_list, H2.
  destruct Hsecond as [-> | ->]; reflexivity.
Qed.

(** C7, as the claim has it, fails: the body [{"result": [{}, {}]}]
    comes with status 200 and has no sequence of records as second
    element of [result], and [irc_codes] does not fail on it: it
    returns the empty mapping. *)
Lemma irc_codes_accepts_empty_object :
  serve "192.168.1.20" listless_tv [] (irc_codes_request living_room)
  = Some (reply 200 None (Some no_list))
  /\ status_code (reply 200 None (Some no_list)) = 200
  /\ ~ expected_structure no_list
  /\ fst (irc_codes (serve "192.168.1.20" listless_tv) living_room []) = inr []
  /\ (forall e : error,
       fst (irc_codes (serve "192.168.1.20" listless_tv) living_room []) <> inl e).
Proof.
  split; [reflexivity |]. split; [reflexivity |].
  split; [| split; [reflexivity | discriminate]].
  intros [top [items [records [Hv [Htop [H2 _]]]]]].
  injection Hv as <-. simpl in Htop. injection Htop as <-. discriminate H2.
Qed.

(** C7, amended.  [irc_codes] makes one request.  On a status other
    than 200 it fails, with the [RuntimeError] that carries
    [response.body] when the response has that attribute.  On status
    200 it fails with a [ValueError] when the body does not decode, and
    with a [KeyError], [IndexError] or [TypeError] when the decoded
    body lacks the expected structure, with one exception: an empty
    object or an empty string in the place of the list of records is
    run through as an empty sequence and gives the empty mapping. *)
Theorem irc_codes_failures device config tr resp :
  device tr (irc_codes_request config) = Some resp ->
  snd (irc_codes device config tr) = tr ++ [Post (irc_codes_request config)]
  /\ (status_code resp <> 200 ->
      exists e,
        fst (irc_codes device config tr) = inl e
        /\ forall b, body_attr resp = Some b -> e = RuntimeError (ArgText b))
  /\ (status_code resp = 200 -> json resp = None ->
      fst (irc_codes device config tr) = inl ValueError)
  /\ (forall v,
        status_code resp = 200 -> json resp = Some v ->
        ~ expected_structure v -> ~ empty_second v ->
        exists e, fst (irc_codes device config tr) = inl e /\ lookup_fault e = true)
  /\ (forall v,
        status_code resp = 200 -> json resp = Some v -> empty_second v ->
        fst (irc_codes device config tr) = inr []).
Proof.
  intros Hd. rewrite irc_codes_run. unfold answered. rewrite Hd. cbn [fst snd].
  split; [reflexivity |]. split; [| split; [| split]].
  - intros Hs. unfold read_codes.
    replace (status_code resp =? 200) with false by (symmetry; apply Z.eqb_neq; exact Hs).
    cbn [negb]. unfold get_body.
    destruct (body_attr resp) as [b |].
    + exists (RuntimeError (ArgText b)). split; [reflexivity |].
      intros b' [= <-]. reflexivity.
    + exists (AttributeError "body"). split; [reflexivity | discriminate].
  - intros Hs Hj. unfold read_codes, get_json. rewrite Hs, Hj. reflexivity.
  - intros v Hs Hj Hno Hne.
    destruct (read_codes resp) as [e | codes] eqn:Hr.
    + exists e. split; [reflexivity | exact (read_codes_fault resp e Hs Hr)].
    + destruct (read_codes_success resp v codes Hs Hj Hr) as [H | [H _]]; contradiction.
  - intros v Hs Hj He. apply (read_codes_empty_second resp v Hs Hj He).
Qed.

Lemma forbidden_not_expected : ~ expected_structure forbidden.
Proof.
  intros [top [items [records [Hv [Htop _]]]]].
  injection Hv as <-. discriminate Htop.
Defined.

Lemma forbidden_not_empty_second : ~ empty_second forbidden.
Proof.
  intros [top [items [second [Hv [Htop _]]]]].
  injection Hv as <-. discriminate Htop.
Defined.

Lemma irc_codes_failures_witness :
  serve "192.168.1.20" closed_tv [] (irc_codes_request living_room)
  = Some (reply 200 None (Some forbidden))
  /\ status_code (reply 200 None (Some forbidden)) = 200
  /\ json (reply 200 None (Some forbidden)) = Some forbidden
  /\ ~ expected_structure forbidden
  /\ ~ empty_second forbidden
  /\ exists e,
       fst (irc_codes (serve "192.168.1.20" closed_tv) living_room []) = inl e
       /\ lookup_fault e = true.
Proof.
  split; [reflexivity |]. split; [reflexivity |]. split; [reflexivity |].
  split; [exact forbidden_not_expected |]. split; [exact forbidden_not_empty_second |].
  destruct (irc_codes_failures (serve "192.168.1.20" closed_tv) living_room []
              (reply 200 None (Some forbidden)) eq_refl) as [_ [_ [_ [Hfault _]]]].
  apply (Hfault forbidden eq_refl eq_refl forbidden_not_expected forbidden_not_empty_second).
Defined.

(** * Further properties of the module *)

(** ** Outcomes of the single requests *)

(** X1. For a command of the mapping and a device that answers,
    [_send_irc_code] returns exactly when the status is 200; on any
    other status it raises the [RuntimeError] that carries the
    response.  Either way one request went out. *)
Theorem dispatch_outcome device str self code v tr resp :
  dict_get (PyStr code) (_irc_codes self) = Some v ->
  device tr (ircc_request str self v) = Some resp ->
  (fst (_send_irc_code device str self code tr) = inr tt <-> status_code resp = 200)
  /\ (status_code resp <> 200 ->
      fst (_send_irc_code device str self code tr) = inl (RuntimeError (ArgResponse resp)))
  /\ snd (_send_irc_code device str self code tr) = tr ++ [Post (ircc_request str self v)].
Proof.
  intros Hv Hd. rewrite (send_irc_code_run device str self code v tr Hv).
  unfold answered, read_sent. rewrite Hd. cbn [fst snd].
  destruct (Z.eqb_spec (status_code resp) 200) as [Hs | Hs]; cbn [negb].
  - repeat split; intros; try reflexivity; try assumption. contradiction.
  - repeat split; intros; try reflexivity; try discriminate. contradiction.
Qed.

Lemma dispatch_outcome_witness :
  dict_get (PyStr "Mute") (_irc_codes session) = Some (PyStr "AAAAAQAAAAEAAAAUAw==")
  /\ serve "192.168.1.20" deaf_tv [] (ircc_request str_unused session (PyStr "AAAAAQAAAAEAAAAUAw=="))
     = Some (reply 500 None None)
  /\ fst (_send_irc_code (serve "192.168.1.20" deaf_tv) str_unused session "Mute" [])
     = inl (RuntimeError (ArgResponse (reply 500 None None))).
Proof.
  split; [reflexivity |]. split; [reflexivity |].
  destruct (dispatch_outcome (serve "192.168.1.20" deaf_tv) str_unused session "Mute"
              (PyStr "AAAAAQAAAAEAAAAUAw==") [] (reply 500 None None) eq_refl eq_refl)
    as [_ [Hbad _]].
  apply Hbad. discriminate.
Defined.

(** X2. [_attempt_auth] never raises on a refusal: it returns [False]
    exactly when the status is not 200, whatever the status is, and it
    returns a cookie exactly when the status is 200 and the answer has
    a [Set-Cookie] header, which is then the cookie.  One request went
    out. *)
Theorem attempt_auth_outcome device config pincode tr resp :
  device tr (auth_request config pincode) = Some resp ->
  (fst (_attempt_auth device config pincode tr) = inr AuthFalse <-> status_code resp <> 200)
  /\ (forall c,
        fst (_attempt_auth device config pincode tr) = inr (AuthCookie c)
        <-> status_code resp = 200 /\ headers resp "Set-Cookie" = Some c)
  /\ snd (_attempt_auth device config pincode tr) = tr ++ [Post (auth_request config pincode)].
Proof.
  intros Hd. rewrite attempt_auth_run. unfold answered, read_auth, get_header.
  rewrite Hd. cbn [fst snd].
  destruct (Z.eqb_spec (status_code resp) 200) as [Hs | Hs]; cbn [negb].
  - destruct (headers resp "Set-Cookie") as [c0 |]; simpl.
    + split; [split; [discriminate | contradiction] |]. split; [| reflexivity].
      intros c. split.
      * intros [= <-]. split; [exact Hs | reflexivity].
      * intros [_ [= <-]]. reflexivity.
    + split; [split; [discriminate | contradiction] |]. split; [| reflexivity].
      intros c. split; [discriminate | intros [_ H]; discriminate H].
  - split; [split; [intros _; exact Hs | reflexivity] |]. split; [| reflexivity].
    intros c. split; [discriminate | intros [H _]; contradiction].
Qed.

Lemma attempt_auth_outcome_witness :
  serve "192.168.1.20" pairing_tv [] (auth_request living_room (Some "0000"%string))
  = Some (reply 401 None None)
  /\ fst (_attempt_auth (serve "192.168.1.20" pairing_tv) living_room (Some "0000"%string) [])
     = inr AuthFalse.
Proof.
  split; [reflexivity |].
  destruct (attempt_auth_outcome (serve "192.168.1.20" pairing_tv) living_room
              (Some "0000"%string) [] (reply 401 None None) eq_refl) as [[_ H] _].
  apply H. discriminate.
Defined.

(** X3. [is_on] makes one request and gives a boolean only for an
    answer with status 200 whose body decodes to an object with a
    [result] list, the first element of which is an object with a
    [status]; the boolean is the comparison of that status with
    [active].  On status 200 every failure is a fault of the decoding
    or of a lookup; on another status it never returns. *)
Theorem is_on_outcome device self tr resp :
  device tr (is_on_request (config self)) = Some resp ->
  snd (is_on device self tr) = tr ++ [Post (is_on_request (config self))]
  /\ (forall b,
        fst (is_on device self tr) = inr b ->
        status_code resp = 200
        /\ exists top first rest status,
             json resp = Some (PyDict top)
             /\ dict_find "result" top = Some (PyList (PyDict first :: rest))
             /\ dict_find "status" first = Some status
             /\ b = eq_str status "active")
  /\ (forall e,
        status_code resp = 200 -> fst (is_on device self tr) = inl e -> lookup_fault e = true)
  /\ (status_code resp <> 200 -> exists e, fst (is_on device self tr) = inl e).
Proof.
  intros Hd. rewrite is_on_run. unfold answered. rewrite Hd. cbn [fst snd].
  split; [reflexivity |]. unfold read_power, get_json, get_body.
  destruct (Z.eqb_spec (status_code resp) 200) as [Hs | Hs]; cbn [negb].
  - split; [| split; [| contradiction]].
    + intros b H. split; [exact Hs |].
      destruct (json resp) as [data |]; [| discriminate]. unfold and_then at 1 in H.
      destruct (getitem_str data "result") as [e1 | result] eqn:H1; [discriminate |].
      destruct (getitem_str_dict _ _ _ H1) as [top [-> Htop]].
      unfold and_then at 1 in H.
      destruct result as [| b0 | n | q | s | items | fields]; try discriminate.
      * unfold getitem_int in H.
        destruct (position 0 (String.length s)) as [n |]; [| discriminate].
        destruct (String.get n s) as [c |]; discriminate.
      * change 0 with (Z.of_nat 0) in H. rewrite getitem_int_list in H.
        destruct items as [| first rest]; [discriminate |].
        cbn [nth_error and_then] in H.
        destruct (getitem_str first "status") as [e2 | status] eqn:H2; [discriminate |].
        destruct (getitem_str_dict _ _ _ H2) as [fields [-> Hst]].
        injection H as <-.
        exists top, fields, rest, status. repeat split; assumption.
    + intros e _.
      destruct (json resp) as [data |]; [| intros [= <-]; reflexivity].
      unfold and_then at 1.
      destruct (getitem_str data "result") as [e1 | result] eqn:H1.
      { intros [= <-]. exact (getitem_str_fault _ _ _ H1). }
      unfold and_then at 1.
      destruct (getitem_int result 0) as [e2 | first] eqn:H2.
      { intros [= <-]. exact (getitem_int_fault _ _ _ H2). }
      unfold and_then at 1.
      destruct (getitem_str first "status") as [e3 | status] eqn:H3.
      { intros [= <-]. exact (getitem_str_fault _ _ _ H3). }
      discriminate.
  - split; [| split].
    + intros b H. destruct (body_attr resp); discriminate H.
    + intros e Hs'. contradiction.
    + intros _. destruct (body_attr resp) as [b |]; eexists; reflexivity.
Qed.

Lemma is_on_outcome_witness :
  serve "192.168.1.20" closed_tv [] (is_on_request (config session))
  = Some (reply 200 None (Some forbidden))
  /\ fst (is_on (serve "192.168.1.20" closed_tv) session []) = inl (KeyError (PyStr "result"))
  /\ lookup_fault (KeyError (PyStr "result")) = true.
Proof.
  split; [reflexivity |]. split; [reflexivity |].
  destruct (is_on_outcome (serve "192.168.1.20" closed_tv) session []
              (reply 200 None (Some forbidden)) eq_refl) as [_ [_ [Hfault _]]].
  apply (Hfault (KeyError (PyStr "result")) eq_refl eq_refl).
Defined.

(** ** The ways through [connect] *)

Lemma credential_some (a : auth_outcome) (key : string) :
  credential a = Some key -> a = AuthCookie key /\ truthy key = true.
Proof.
  destruct a as [| c]; simpl; [discriminate |].
  destruct (truthy c) eqn:Hc; [| discriminate].
  intros [= <-]. split; [reflexivity | exact Hc].
Qed.

Lemma answered_cookie device tr r c :
  answered device tr r read_auth = inr (AuthCookie c) ->
  exists resp,
    device tr r = Some resp /\ status_code resp = 200 /\ headers resp "Set-Cookie" = Some c.
Proof.
  unfold answered, read_auth, get_header.
  destruct (device tr r) as [resp |]; [| discriminate].
  destruct (Z.eqb_spec (status_code resp) 200) as [Hs | Hs]; cbn [negb]; [| discriminate].
  destruct (headers resp "Set-Cookie") as [c0 |] eqn:Hh; simpl; [| discriminate].
  intros [= <-]. exists resp. split; [reflexivity | split; [exact Hs | exact Hh]].
Qed.

(** [connect], written out: every way through it, with the trace it
    leaves. *)
Lemma connect_run device config callback tr :
  connect device config callback tr
  = match answered device tr (auth_request config None) read_auth with
    | inl e => (inl e, tr ++ [Post (auth_request config None)])
    | inr a =>
        match credential a with
        | Some key => TV_init device key config (tr ++ [Post (auth_request config None)])
        | None =>
            match callback (tr ++ [Post (auth_request config None)]) with
            | inl e => (inl e, tr ++ [Post (auth_request config None); Callback])
            | inr pin =>
                match answered device (tr ++ [Post (auth_request config None); Callback])
                        (auth_request config (Some pin)) read_auth with
                | inl e =>
                    (inl e, tr ++ [Post (auth_request config None); Callback;
                                   Post (auth_request config (Some pin))])
                | inr a2 =>
                    match credential a2 with
                    | Some key =>
                        TV_init device key config
                          (tr ++ [Post (auth_request config None); Callback;
                                  Post (auth_request config (Some pin))])
                    | None =>
                        (inl (RuntimeError (ArgText "Could not pair with the TV")),
                         tr ++ [Post (auth_request config None); Callback;
                                Post (auth_request config (Some pin))])
                    end
                end
            end
        end
    end.
Proof.
  unfold connect, bind at 1. rewrite attempt_auth_run.
  destruct (answered device tr (auth_request config None) read_auth) as [e | a];
    [reflexivity |].
  destruct (credential a) as [key |]; [reflexivity |].
  unfold bind at 1, call.
  replace ((tr ++ [Post (auth_request config None)]) ++ [Callback])
    with (tr ++ [Post (auth_request config None); Callback])
    by (rewrite <- app_assoc; reflexivity).
  destruct (callback (tr ++ [Post (auth_request config None)])) as [e | pin];
    [reflexivity |].
  unfold bind at 1. rewrite attempt_auth_run.
  replace ((tr ++ [Post (auth_request config None); Callback])
           ++ [Post (auth_request config (Some pin))])
    with (tr ++ [Post (auth_request config None); Callback;
                 Post (auth_request config (Some pin))])
    by (rewrite <- app_assoc; reflexivity).
  destruct (answered device (tr ++ [Post (auth_request config None); Callback])
              (auth_request config (Some pin)) read_auth) as [e | a2]; [reflexivity |].
  destruct (credential a2); reflexivity.
Qed.

(** X4. Whatever the device and the callback do, [connect] makes at
    least one and at most three requests, the first of them the pairing
    request without credentials, calls the callback at most once, and
    talks to the pairing and the system endpoint of the configured host
    only: it never sends a control request. *)
Theorem connect_requests_bounded device config callback tr :
  exists added,
    snd (connect device config callback tr) = tr ++ added
    /\ hd_error added = Some (Post (auth_request config None))
    /\ (1 <= List.length (posts added) <= 3)%nat
    /\ (callbacks added <= 1)%nat
    /\ Forall (pairing_or_system config) (posts added).
Proof.
  rewrite connect_run.
  assert (Ha : forall p, pairing_or_system config (auth_request config p))
    by (intros p; left; reflexivity).
  assert (Hi : pairing_or_system config (irc_codes_request config))
    by (right; reflexivity).
  destruct (answered device tr (auth_request config None) read_auth) as [e | a].
  { exists [Post (auth_request config None)]. simpl. repeat split; auto. }
  destruct (credential a) as [key |].
  { rewrite TV_init_run. cbn [snd]. rewrite <- app_assoc.
    exists [Post (auth_request config None); Post (irc_codes_request config)].
    simpl. repeat split; auto. }
  destruct (callback (tr ++ [Post (auth_request config None)])) as [e | pin].
  { exists [Post (auth_request config None); Callback]. simpl. repeat split; auto. }
  destruct (answered device (tr ++ [Post (auth_request config None); Callback])
              (auth_request config (Some pin)) read_auth) as [e | a2].
  { exists [Post (auth_request config None); Callback; Post (auth_request config (Some pin))].
    simpl. repeat split; auto. }
  destruct (credential a2) as [key |].
  - rewrite TV_init_run. cbn [snd]. rewrite <- app_assoc.
    exists [Post (auth_request config None); Callback; Post (auth_request config (Some pin));
            Post (irc_codes_request config)].
    simpl. repeat split; auto.
  - exists [Post (auth_request config None); Callback; Post (auth_request config (Some pin))].
    simpl. repeat split; auto.
Qed.

(** X5. When the first attempt gives no credential and the callback
    raises, [connect] ends with the exception of the callback: there is
    no second pairing request and no request for the codes. *)
Theorem connect_callback_raises device config callback tr a e :
  fst (_attempt_auth device config None tr) = inr a ->
  credential a = None ->
  callback (tr ++ [Post (auth_request config None)]) = inl e ->
  connect device config callback tr
  = (inl e, tr ++ [Post (auth_request config None); Callback]).
Proof.
  intros Ha Hnone He. rewrite connect_run.
  rewrite attempt_auth_run in Ha. cbn [fst] in Ha. rewrite Ha, Hnone, He. reflexivity.
Qed.

Lemma connect_callback_raises_witness :
  fst (_attempt_auth (serve "192.168.1.20" pairing_tv) living_room None []) = inr AuthFalse
  /\ credential AuthFalse = None
  /\ gives_up ([] ++ [Post (auth_request living_room None)]) = inl (Exception "no pincode")
  /\ connect (serve "192.168.1.20" pairing_tv) living_room gives_up []
     = (inl (Exception "no pincode"), [] ++ [Post (auth_request living_room None); Callback]).
Proof.
  do 3 (split; [reflexivity |]).
  apply (connect_callback_raises (serve "192.168.1.20" pairing_tv) living_room gives_up []
           AuthFalse (Exception "no pincode")); reflexivity.
Defined.

(** X6. A pairing answer with status 200 and an empty [Set-Cookie] is
    no credential for [connect]: the attempt returns the empty cookie,
    and [connect] goes on to call the callback, once. *)
Theorem connect_empty_cookie device config callback tr resp :
  device tr (auth_request config None) = Some resp ->
  status_code resp = 200 ->
  headers resp "Set-Cookie" = Some EmptyString ->
  fst (_attempt_auth device config None tr) = inr (AuthCookie EmptyString)
  /\ callbacks (snd (connect device config callback tr)) = S (callbacks tr)
  /\ exists rest,
       snd (connect device config callback tr)
       = tr ++ Post (auth_request config None) :: Callback :: rest.
Proof.
  intros Hd Hs Hh.
  assert (Hans : answered device tr (auth_request config None) read_auth
                 = inr (AuthCookie EmptyString)).
  { unfold answered, read_auth, get_header. rewrite Hd, Hs, Hh. reflexivity. }
  split; [rewrite attempt_auth_run; exact Hans |].
  rewrite connect_run, Hans. cbn [credential truthy].
  destruct (callback (tr ++ [Post (auth_request config None)])) as [e | pin].
  { cbn [snd]. split; [rewrite callbacks_app; simpl; lia | exists []; reflexivity]. }
  destruct (answered device (tr ++ [Post (auth_request config None); Callback])
              (auth_request config (Some pin)) read_auth) as [e | a2].
  { cbn [snd]. split; [rewrite callbacks_app; simpl; lia |].
    exists [Post (auth_request config (Some pin))]. reflexivity. }
  destruct (credential a2) as [key |].
  - rewrite TV_init_run. cbn [snd]. rewrite <- app_assoc.
    split; [rewrite callbacks_app; simpl; lia |].
    exists [Post (auth_request config (Some pin)); Post (irc_codes_request config)].
    reflexivity.
  - cbn [snd]. split; [rewrite callbacks_app; simpl; lia |].
    exists [Post (auth_request config (Some pin))]. reflexivity.
Qed.

Lemma connect_empty_cookie_witness :
  serve "192.168.1.20" blank_cookie_tv [] (auth_request living_room None)
  = Some (reply 200 (Some EmptyString) None)
  /\ status_code (reply 200 (Some EmptyString) None) = 200
  /\ headers (reply 200 (Some EmptyString) None) "Set-Cookie" = Some EmptyString
  /\ callbacks (snd (connect (serve "192.168.1.20" blank_cookie_tv) living_room types_4711 []))
     = S (callbacks []).
Proof.
  do 3 (split; [reflexivity |]).
  destruct (connect_empty_cookie (serve "192.168.1.20" blank_cookie_tv) living_room
              types_4711 [] (reply 200 (Some EmptyString) None) eq_refl eq_refl eq_refl)
    as [_ [H _]].
  exact H.
Defined.

(** X7. The second pairing request of [connect] is the first one
    again, with the pincode of the callback as password and an empty
    user name; a callback that returns the empty string makes
    [connect] repeat its first request unchanged. *)
Theorem connect_second_request device config callback tr a pin :
  fst (_attempt_auth device config None tr) = inr a ->
  credential a = None ->
  callback (tr ++ [Post (auth_request config None)]) = inr pin ->
  exists r2 rest,
    snd (connect device config callback tr)
    = tr ++ Post (auth_request config None) :: Callback :: Post r2 :: rest
    /\ req_url r2 = req_url (auth_request config None)
    /\ req_data r2 = req_data (auth_request config None)
    /\ req_headers r2 = req_headers (auth_request config None)
    /\ req_auth r2 = (if truthy pin then Some (EmptyString, pin) else None)
    /\ (pin = EmptyString -> r2 = auth_request config None).
Proof.
  intros Ha Hnone Hpin. rewrite connect_run.
  rewrite attempt_auth_run in Ha. cbn [fst] in Ha. rewrite Ha, Hnone, Hpin.
  exists (auth_request config (Some pin)).
  assert (Hsame : pin = EmptyString -> auth_request config (Some pin) = auth_request config None)
    by (intros ->; reflexivity).
  destruct (answered device (tr ++ [Post (auth_request config None); Callback])
              (auth_request config (Some pin)) read_auth) as [e | a2].
  { exists []. repeat split; auto. }
  destruct (credential a2) as [key |].
  - rewrite TV_init_run. cbn [snd]. rewrite <- app_assoc.
    exists [Post (irc_codes_request config)]. repeat split; auto.
  - exists []. repeat split; auto.
Qed.

Lemma connect_second_request_witness :
  fst (_attempt_auth (serve "192.168.1.20" pairing_tv) living_room None []) = inr AuthFalse
  /\ credential AuthFalse = None
  /\ types_nothing ([] ++ [Post (auth_request living_room None)]) = inr EmptyString
  /\ exists r2 rest,
       snd (connect (serve "192.168.1.20" pairing_tv) living_room types_nothing [])
       = [] ++ Post (auth_request living_room None) :: Callback :: Post r2 :: rest
       /\ r2 = auth_request living_room None.
Proof.
  do 3 (split; [reflexivity |]).
  destruct (connect_second_request (serve "192.168.1.20" pairing_tv) living_room types_nothing
              [] AuthFalse EmptyString eq_refl eq_refl eq_refl)
    as [r2 [rest [Htr [_ [_ [_ [_ Hsame]]]]]]].
  exists r2, rest. split; [exact Htr | exact (Hsame eq_refl)].
Defined.

Lemma TV_init_result device key cfg tr tv :
  fst (TV_init device key cfg tr) = inr tv ->
  config tv = cfg /\ auth_key tv = key
  /\ fst (irc_codes device cfg tr) = inr (_irc_codes tv)
  /\ snd (TV_init device key cfg tr) = tr ++ [Post (irc_codes_request cfg)].
Proof.
  rewrite TV_init_run, irc_codes_run. cbn [fst snd].
  destruct (answered device tr (irc_codes_request cfg) read_codes) as [e | codes];
    simpl; [discriminate |].
  intros [= <-]. repeat split.
Qed.

(** X8. A session that [connect] returns holds the configuration that
    was given, a credential that is not empty and is the [Set-Cookie]
    of a pairing answer with status 200, and the codes of a discovery
    that was the last request of [connect]. *)
Theorem connect_session device cfg callback tr tv :
  fst (connect device cfg callback tr) = inr tv ->
  config tv = cfg
  /\ truthy (auth_key tv) = true
  /\ (exists pincode tr0 resp,
        device tr0 (auth_request cfg pincode) = Some resp
        /\ status_code resp = 200
        /\ headers resp "Set-Cookie" = Some (auth_key tv))
  /\ exists tr1,
       snd (connect device cfg callback tr) = tr1 ++ [Post (irc_codes_request cfg)]
       /\ fst (irc_codes device cfg tr1) = inr (_irc_codes tv).
Proof.
  rewrite connect_run.
  destruct (answered device tr (auth_request cfg None) read_auth) as [e | a] eqn:H1;
    [discriminate |].
  destruct (credential a) as [key |] eqn:Hc.
  { intros H. destruct (credential_some a key Hc) as [-> Hkey].
    destruct (TV_init_result _ _ _ _ _ H) as [Hcfg [Hauth [Hcodes Htr]]].
    destruct (answered_cookie _ _ _ _ H1) as [resp [Hd [Hs Hh]]].
    subst key. repeat split; try assumption.
    - exists None, tr, resp. repeat split; assumption.
    - exists (tr ++ [Post (auth_request cfg None)]). split; assumption. }
  destruct (callback (tr ++ [Post (auth_request cfg None)])) as [e | pin];
    [discriminate |].
  destruct (answered device (tr ++ [Post (auth_request cfg None); Callback])
              (auth_request cfg (Some pin)) read_auth) as [e | a2] eqn:H2;
    [discriminate |].
  destruct (credential a2) as [key |] eqn:Hc2; [| discriminate].
  intros H. destruct (credential_some a2 key Hc2) as [-> Hkey].
  destruct (TV_init_result _ _ _ _ _ H) as [Hcfg [Hauth [Hcodes Htr]]].
  destruct (answered_cookie _ _ _ _ H2) as [resp [Hd [Hs Hh]]].
  subst key. repeat split; try assumption.
  - exists (Some pin), (tr ++ [Post (auth_request cfg None); Callback]), resp.
    repeat split; assumption.
  - exists (tr ++ [Post (auth_request cfg None); Callback;
                   Post (auth_request cfg (Some pin))]).
    split; assumption.
Qed.

Lemma connect_session_witness :
  fst (connect (serve "192.168.1.20" pairing_tv) living_room types_4711 [])
  = inr {| auth_key := "auth=89ab; path=/sony/"; config := living_room;
           _irc_codes := _irc_codes session |}
  /\ truthy "auth=89ab; path=/sony/" = true.
Proof.
  split; [reflexivity |].
  destruct (connect_session (serve "192.168.1.20" pairing_tv) living_room types_4711 []
              {| auth_key := "auth=89ab; path=/sony/"; config := living_room;
                 _irc_codes := _irc_codes session |} eq_refl) as [_ [H _]].
  exact H.
Defined.

(** ** The volume loops *)

(** X9. With a count of zero or less [volume_up] and [volume_down] do
    nothing: no request, no lookup, no error, whether or not the
    mapping has the command. *)
Theorem volume_nonpositive device str self n tr :
  n <= 0 ->
  volume_up device str self (Some n) tr = (inr tt, tr)
  /\ volume_down device str self (Some n) tr = (inr tt, tr).
Proof.
  intros Hn. unfold volume_up, volume_down, range.
  replace (Z.to_nat (n - 0)) with O by lia. split; reflexivity.
Qed.

Lemma volume_nonpositive_witness :
  -3 <= 0
  /\ volume_up (serve "192.168.1.20" deaf_tv) str_unused
       {| auth_key := "k"; config := living_room; _irc_codes := [] |} (Some (-3)) []
     = (inr tt, []).
Proof.
  split; [lia |].
  apply (volume_nonpositive (serve "192.168.1.20" deaf_tv) str_unused
           {| auth_key := "k"; config := living_room; _irc_codes := [] |} (-3) []).
  lia.
Defined.

Lemma for_each_app {A S : Type} (xs ys : list A) (step : A -> S -> M S) (s : S) (tr : trace) :
  for_each (xs ++ ys) step s tr
  = bind (for_each xs step s) (fun s' => for_each ys step s') tr.
Proof.
  revert s tr. induction xs as [| x xs IH]; intros s tr; [reflexivity |].
  simpl. unfold bind.
  destruct (step x s tr) as [[e | s'] tr']; [reflexivity |].
  rewrite IH. unfold bind. reflexivity.
Qed.

(** A loop whose body ignores the element depends on the number of
    elements only. *)
Lemma for_each_same_length {A B : Type} (xs : list A) (ys : list B) (m : M unit) :
  List.length xs = List.length ys ->
  forall tr, for_each xs (fun _ _ => m) tt tr = for_each ys (fun _ _ => m) tt tr.
Proof.
  revert ys. induction xs as [| x xs IH]; intros [| y ys] Hlen tr;
    try discriminate Hlen; [reflexivity |].
  simpl. unfold bind. destruct (m tr) as [[e | []] tr']; [reflexivity |].
  apply IH. injection Hlen as Hlen. exact Hlen.
Qed.

Lemma length_range_add (a b : Z) :
  0 <= a -> 0 <= b ->
  List.length (range 0 (a + b)) = List.length (range 0 a ++ range 0 b).
Proof.
  intros Ha Hb. rewrite length_app, !length_range. lia.
Qed.

(** X10. Turning the volume up by [a] and then by [b] is turning it up
    by [a + b]: the same requests in the same order and the same
    outcome, also when a dispatch fails on the way; and so for
    [volume_down]. *)
Theorem volume_twice device str self a b tr :
  0 <= a -> 0 <= b ->
  bind (volume_up device str self (Some a)) (fun _ => volume_up device str self (Some b)) tr
  = volume_up device str self (Some (a + b)) tr
  /\ bind (volume_down device str self (Some a))
       (fun _ => volume_down device str self (Some b)) tr
     = volume_down device str self (Some (a + b)) tr.
Proof.
  intros Ha Hb. unfold volume_up, volume_down. split.
  - rewrite (for_each_same_length (range 0 (a + b)) (range 0 a ++ range 0 b)
               (_send_irc_code device str self "VolumeUp") (length_range_add a b Ha Hb)).
    rewrite for_each_app. unfold bind.
    destruct (for_each (range 0 a) (fun _ _ => _send_irc_code device str self "VolumeUp") tt tr)
      as [[e | []] tr']; reflexivity.
  - rewrite (for_each_same_length (range 0 (a + b)) (range 0 a ++ range 0 b)
               (_send_irc_code device str self "VolumeDown") (length_range_add a b Ha Hb)).
    rewrite for_each_app. unfold bind.
    destruct (for_each (range 0 a) (fun _ _ => _send_irc_code device str self "VolumeDown") tt tr)
      as [[e | []] tr']; reflexivity.
Qed.

Lemma volume_twice_witness :
  0 <= 2 /\ 0 <= 3
  /\ bind (volume_up (serve "192.168.1.20" paired_tv) str_unused session (Some 2))
       (fun _ => volume_up (serve "192.168.1.20" paired_tv) str_unused session (Some 3)) []
     = volume_up (serve "192.168.1.20" paired_tv) str_unused session (Some (2 + 3)) [].
Proof.
  split; [lia |]. split; [lia |].
  apply (volume_twice (serve "192.168.1.20" paired_tv) str_unused session 2 3 []); lia.
Defined.

(** ** More on the discovery *)

(** What [read_codes] does with a body of the expected outer shape: it
    runs the loop over the second element of [result]. *)
Lemma read_codes_list (resp : response) top items records :
  status_code resp = 200 ->
  json resp = Some (PyDict top) ->
  dict_find "result" top = Some (PyList items) ->
  nth_error items 1 = Some (PyList records) ->
  read_codes resp = collected records [].
Proof.
  intros Hs Hj Hres Hsnd. unfold read_codes, get_json. rewrite Hs, Hj.
  change (negb (200 =? 200)) with false. cbv beta iota. unfold and_then at 1.
  unfold getitem_str. rewrite Hres. unfold and_then at 1.
  change 1 with (Z.of_nat 1). rewrite getitem_int_list, Hsnd. reflexivity.
Qed.

Lemma collected_app (xs ys : list pyvalue) (d : pydict) :
  collected (xs ++ ys) d = and_then (collected xs d) (collected ys).
Proof.
  revert d. induction xs as [| x xs IH]; intros d; [reflexivity |].
  simpl. destruct (stored x d) as [e | d']; simpl; [reflexivity | apply IH].
Qed.

(** X11. The first record that is not as expected ends the discovery,
    and no mapping of the records before it is returned: a record
    without [value] gives [KeyError('value')], also when it has no
    [name] either; one with a value and no [name] gives
    [KeyError('name')]; one whose name is a list or an object, and an
    entry that is no object at all, give a [TypeError]. *)
Theorem irc_codes_first_defect device config tr resp top items good bad rest :
  device tr (irc_codes_request config) = Some resp ->
  status_code resp = 200 ->
  json resp = Some (PyDict top) ->
  dict_find "result" top = Some (PyList items) ->
  nth_error items 1 = Some (PyList (good ++ bad :: rest)) ->
  Forall is_keyed_record good ->
  (forall fields,
     bad = PyDict fields -> dict_find "value" fields = None ->
     fst (irc_codes device config tr) = inl (KeyError (PyStr "value")))
  /\ (forall fields x,
        bad = PyDict fields -> dict_find "value" fields = Some x ->
        dict_find "name" fields = None ->
        fst (irc_codes device config tr) = inl (KeyError (PyStr "name")))
  /\ (forall fields x n,
        bad = PyDict fields -> dict_find "value" fields = Some x ->
        dict_find "name" fields = Some n -> hashable n = false ->
        fst (irc_codes device config tr) = inl TypeError)
  /\ ((forall fields, bad <> PyDict fields) ->
      fst (irc_codes device config tr) = inl TypeError).
Proof.
  intros Hd Hs Hj Hres Hsnd Hgood.
  rewrite irc_codes_run. unfold answered. rewrite Hd. cbn [fst].
  rewrite (read_codes_list resp top items _ Hs Hj Hres Hsnd), collected_app.
  destruct (collected_keyed_records good Hgood []) as [d [-> _]]. cbn [and_then collected].
  unfold stored. repeat split.
  - intros fields -> Hv. unfold getitem_str. rewrite Hv. reflexivity.
  - intros fields x -> Hv Hn. unfold getitem_str. rewrite Hv, Hn. reflexivity.
  - intros fields x n -> Hv Hn Hh. unfold getitem_str, dict_setitem.
    rewrite Hv, Hn. simpl. rewrite Hh. reflexivity.
  - intros Hno. destruct bad; try reflexivity. exfalso. exact (Hno fields eq_refl).
Qed.

Lemma irc_codes_first_defect_witness :
  serve "192.168.1.20" defective_tv [] (irc_codes_request living_room)
  = Some (reply 200 None (Some defective))
  /\ Forall is_keyed_record [record_of "Mute" "AAAAAQAAAAEAAAAUAw=="]
  /\ dict_find "value" [("name", PyStr "Home")] = None
  /\ fst (irc_codes (serve "192.168.1.20" defective_tv) living_room [])
     = inl (KeyError (PyStr "value")).
Proof.
  split; [reflexivity |]. split; [exact mute_record_keyed |]. split; [reflexivity |].
  destruct (irc_codes_first_defect (serve "192.168.1.20" defective_tv) living_room []
              (reply 200 None (Some defective))
              [("result", PyList [PyDict [];
                 PyList [record_of "Mute" "AAAAAQAAAAEAAAAUAw==";
                         PyDict [("name", PyStr "Home")];
                         record_of "VolumeUp" "AAAAAQAAAAEAAAASAw=="]])]
              [PyDict [];
               PyList [record_of "Mute" "AAAAAQAAAAEAAAAUAw==";
                       PyDict [("name", PyStr "Home")];
                       record_of "VolumeUp" "AAAAAQAAAAEAAAASAw=="]]
              [record_of "Mute" "AAAAAQAAAAEAAAAUAw=="]
              (PyDict [("name", PyStr "Home")])
              [record_of "VolumeUp" "AAAAAQAAAAEAAAASAw=="]
              eq_refl eq_refl eq_refl eq_refl eq_refl mute_record_keyed) as [H _].
  apply (H [("name", PyStr "Home")]); reflexivity.
Defined.

Lemma mapped_none (records : list pyvalue) (name : string) :
  Forall is_keyed_record records ->
  (mapped records name = None <-> Forall (fun r => named name r = false) records).
Proof.
  induction 1 as [| r rest Hr Hrest IH]; simpl.
  - split; [constructor | reflexivity].
  - destruct Hr as [fields [n [x [-> [Hn [_ Hx]]]]]].
    destruct (mapped rest name) as [y |].
    + split; [discriminate |]. intros H. inversion H as [| ? ? _ Hr']; subst.
      apply IH in Hr'. discriminate Hr'.
    + destruct (named name (PyDict fields)) eqn:Hnamed.
      * simpl. rewrite Hx. split; [discriminate |].
        intros H. inversion H as [| ? ? Hf _]; subst. rewrite Hnamed in Hf. discriminate Hf.
      * split; [| reflexivity]. intros _. constructor; [exact Hnamed |].
        apply IH. reflexivity.
Qed.

(** X12. For a well-formed answer the mapping holds the names of the
    records and no others: a lookup of a name fails exactly when no
    record has that name. *)
Theorem irc_codes_lists_exactly device config tr resp top items records :
  device tr (irc_codes_request config) = Some resp ->
  status_code resp = 200 ->
  json resp = Some (PyDict top) ->
  dict_find "result" top = Some (PyList items) ->
  nth_error items 1 = Some (PyList records) ->
  Forall is_keyed_record records ->
  exists codes,
    fst (irc_codes device config tr) = inr codes
    /\ forall name,
         dict_get (PyStr name) codes = None
         <-> Forall (fun r => named name r = false) records.
Proof.
  intros Hd Hs Hj Hres Hsnd Hrec.
  destruct (collected_keyed_records records Hrec []) as [codes [Hcol Hget]].
  exists codes. split.
  - rewrite irc_codes_run. unfold answered. rewrite Hd. cbn [fst].
    rewrite (read_codes_list resp top items _ Hs Hj Hres Hsnd). exact Hcol.
  - intros name. rewrite <- (mapped_none records name Hrec), Hget.
    destruct (mapped records name); split; intros H; try discriminate; reflexivity.
Qed.

Lemma irc_codes_lists_exactly_witness :
  serve "192.168.1.20" mute_tv [] (irc_codes_request living_room)
  = Some (reply 200 None (Some mute_only))
  /\ exists codes,
       fst (irc_codes (serve "192.168.1.20" mute_tv) living_room []) = inr codes
       /\ dict_get (PyStr "Home") codes = None.
Proof.
  split; [reflexivity |].
  destruct (irc_codes_lists_exactly (serve "192.168.1.20" mute_tv) living_room []
              (reply 200 None (Some mute_only))
              [("result", PyList [PyDict []; PyList [record_of "Mute" "AAAAAQAAAAEAAAAUAw=="]])]
              [PyDict []; PyList [record_of "Mute" "AAAAAQAAAAEAAAAUAw=="]]
              [record_of "Mute" "AAAAAQAAAAEAAAAUAw=="]
              eq_refl eq_refl eq_refl eq_refl eq_refl mute_record_keyed)
    as [codes [Hrun Hiff]].
  exists codes. split; [exact Hrun |].
  apply Hiff. constructor; [reflexivity | constructor].
Defined.

(** ** From pairing to a command *)

(** X13. Pairing, discovery and dispatch fit together: when the first
    pairing answer has status 200 and a cookie that is not empty, and
    the controller info lists a command with a string as code,
    [connect] returns a session, and a dispatch of that command on it
    sends one request to [/sony/IRCC] with that code in the envelope
    and that cookie as [Cookie]. *)
Theorem connect_then_dispatch device str cfg callback tr r1 cookie r2 top items records
    name code tr' :
  device tr (auth_request cfg None) = Some r1 ->
  status_code r1 = 200 ->
  headers r1 "Set-Cookie" = Some cookie ->
  truthy cookie = true ->
  device (tr ++ [Post (auth_request cfg None)]) (irc_codes_request cfg) = Some r2 ->
  status_code r2 = 200 ->
  json r2 = Some (PyDict top) ->
  dict_find "result" top = Some (PyList items) ->
  nth_error items 1 = Some (PyList records) ->
  Forall is_keyed_record records ->
  mapped records name = Some (PyStr code) ->
  exists tv,
    fst (connect device cfg callback tr) = inr tv
    /\ auth_key tv = cookie
    /\ config tv = cfg
    /\ snd (_send_irc_code device str tv name tr')
       = tr' ++ [Post {|
           req_url := ("http://" ++ host cfg ++ "/sony/IRCC")%string;
           req_data := text (envelope code);
           req_headers := [
             ("Cookie"%string, cookie);
             ("SOAPAction"%string,
              (dq ++ "urn:schemas-sony-com:service:IRCC:1#X_SendIRCC" ++ dq)%string)
           ];
           req_auth := None
         |}].
Proof.
  intros Hd1 Hs1 Hh1 Hc Hd2 Hs2 Hj Hres Hsnd Hrec Hmap.
  destruct (collected_keyed_records records Hrec []) as [codes [Hcol Hget]].
  exists {| auth_key := cookie; config := cfg; _irc_codes := codes |}.
  assert (Hans : answered device tr (auth_request cfg None) read_auth = inr (AuthCookie cookie)).
  { unfold answered, read_auth, get_header. rewrite Hd1, Hs1, Hh1. reflexivity. }
  split; [| split; [reflexivity | split; [reflexivity |]]].
  - rewrite connect_run, Hans. cbn [credential]. rewrite Hc.
    rewrite TV_init_run. unfold answered. rewrite Hd2.
    rewrite (read_codes_list r2 top items _ Hs2 Hj Hres Hsnd), Hcol. reflexivity.
  - assert (Hv : dict_get (PyStr name)
                   (_irc_codes {| auth_key := cookie; config := cfg; _irc_codes := codes |})
                 = Some (PyStr code)).
    { cbn [_irc_codes]. rewrite Hget, Hmap. reflexivity. }
    rewrite (send_irc_code_run device str _ name _ tr' Hv). reflexivity.
Qed.

Lemma connect_then_dispatch_witness :
  serve "192.168.1.20" mute_tv [] (auth_request living_room None)
  = Some (reply 200 (Some "auth=0123abcd; path=/sony/"%string)
            (Some (PyDict [("result", PyList [])])))
  /\ mapped [record_of "Mute" "AAAAAQAAAAEAAAAUAw=="] "Mute" = Some (PyStr "AAAAAQAAAAEAAAAUAw==")
  /\ exists tv,
       fst (connect (serve "192.168.1.20" mute_tv) living_room types_4711 []) = inr tv
       /\ auth_key tv = "auth=0123abcd; path=/sony/"%string
       /\ posts (snd (_send_irc_code (serve "192.168.1.20" mute_tv) str_unused tv "Mute" []))
          = [ircc_request str_unused tv (PyStr "AAAAAQAAAAEAAAAUAw==")].
Proof.
  split; [reflexivity |]. split; [reflexivity |].
  destruct (connect_then_dispatch (serve "192.168.1.20" mute_tv) str_unused living_room
              types_4711 []
              (reply 200 (Some "auth=0123abcd; path=/sony/"%string)
                 (Some (PyDict [("result", PyList [])])))
              "auth=0123abcd; path=/sony/"%string
              (reply 200 None (Some mute_only))
              [("result", PyList [PyDict []; PyList [record_of "Mute" "AAAAAQAAAAEAAAAUAw=="]])]
              [PyDict []; PyList [record_of "Mute" "AAAAAQAAAAEAAAAUAw=="]]
              [record_of "Mute" "AAAAAQAAAAEAAAAUAw=="]
              "Mute"%string "AAAAAQAAAAEAAAAUAw=="%string []
              eq_refl eq_refl eq_refl eq_refl eq_refl eq_refl eq_refl eq_refl eq_refl
              mute_record_keyed eq_refl)
    as [tv [Hrun [Hkey [Hcfg Hsend]]]].
  exists tv. split; [exact Hrun |]. split; [exact Hkey |].
  rewrite Hsend. simpl. unfold ircc_request. rewrite Hkey, Hcfg. reflexivity.
Defined.

(** ** What the actions never do *)

Lemma send_irc_code_events device str self code tr :
  exists added,
    snd (_send_irc_code device str self code tr) = tr ++ added
    /\ Forall (control_event str self) added.
Proof.
  destruct (dict_get (PyStr code) (_irc_codes self)) as [v |] eqn:Hv.
  - rewrite (send_irc_code_run device str self code v tr Hv).
    exists [Post (ircc_request str self v)]. split; [reflexivity |].
    constructor; [exists v; reflexivity | constructor].
  - rewrite (send_irc_code_missing device str self code tr Hv).
    exists []. split; [symmetry; apply app_nil_r | constructor].
Qed.

Lemma dispatch_loop_events device str self code (xs : list Z) :
  forall tr,
  exists added,
    snd (for_each xs (fun _ _ => _send_irc_code device str self code) tt tr) = tr ++ added
    /\ Forall (control_event str self) added.
Proof.
  induction xs as [| x xs IH]; intros tr.
  - exists []. split; [symmetry; apply app_nil_r | constructor].
  - simpl. unfold bind.
    destruct (send_irc_code_events device str self code tr) as [first [Hfirst Hf]].
    destruct (_send_irc_code device str self code tr) as [[e | []] tr1]; cbn [snd] in *.
    + exists first. split; assumption.
    + destruct (IH tr1) as [more [Hmore Hm]].
      exists (first ++ more). split.
      * rewrite Hmore, Hfirst, app_assoc. reflexivity.
      * apply Forall_app. split; assumption.
Qed.

(** X14. Whatever the device answers and whatever the mapping holds,
    an action of a session ([mute], [volume_up], [volume_down],
    [pause], [play], [power_off], [wake_up], [home], [netflix],
    [enter], [confirm]) leaves nothing in the trace but control
    requests of that session: every request goes to [/sony/IRCC] of its
    host with its credential as [Cookie], none to the pairing or the
    system endpoint, and the callback is not called. *)
Theorem actions_only_control device str self up down act tr :
  In act (actions device str self up down) ->
  exists added,
    snd (act tr) = tr ++ added
    /\ Forall (control_event str self) added
    /\ callbacks added = O
    /\ Forall (fun r => req_url r = ("http://" ++ host (config self) ++ "/sony/IRCC")%string
                        /\ In ("Cookie"%string, auth_key self) (req_headers r))
         (posts added).
Proof.
  intros Hin.
  assert (Hev : exists added,
            snd (act tr) = tr ++ added /\ Forall (control_event str self) added).
  { simpl in Hin.
    repeat (destruct Hin as [<- | Hin];
            [first [ apply send_irc_code_events | apply dispatch_loop_events ] |]).
    contradiction. }
  destruct Hev as [added [Htr Hall]]. exists added.
  split; [exact Htr |]. split; [exact Hall |].
  clear Htr. induction Hall as [| ev rest [v ->] Hrest [IHc IHp]]; simpl.
  - split; constructor.
  - split; [exact IHc |]. constructor; [| exact IHp].
    split; [reflexivity | left; reflexivity].
Qed.

Lemma actions_only_control_witness :
  In (power_off (serve "192.168.1.20" paired_tv) str_unused session)
     (actions (serve "192.168.1.20" paired_tv) str_unused session None None)
  /\ exists added,
       snd (power_off (serve "192.168.1.20" paired_tv) str_unused session []) = [] ++ added
       /\ callbacks added = O.
Proof.
  assert (Hin : In (power_off (serve "192.168.1.20" paired_tv) str_unused session)
                  (actions (serve "192.168.1.20" paired_tv) str_unused session None None)).
  { simpl. do 5 right. left. reflexivity. }
  split; [exact Hin |].
  destruct (actions_only_control (serve "192.168.1.20" paired_tv) str_unused session
              None None _ [] Hin) as [added [Htr [_ [Hcb _]]]].
  exists added. split; assumption.
Defined.
